(** * mingle: session catalog and connect state machine

    A shallow embedding of [main.go] (package main of the mingle CLI) and the
    properties of its session aggregation ([getSessions]) and of its
    create-or-attach logic ([connectSessionCmd]).

    Go strings are byte sequences; they are modelled by [string] (a list of
    8-bit [ascii] characters).  Everything the program does to the outside
    (running tmux, zoxide, git and tmuxinator, reading the configuration file,
    printing, replacing the process image) goes through a record of oracles
    [Sys] over an abstract world state, and every process invocation and
    every print is appended to a trace. *)

From Stdlib Require Import ZArith Ascii String.
From stdpp Require Import base tactics option list strings gmap pretty.

Local Open Scope string_scope.
Local Open Scope list_scope.
Local Open Scope stdpp_scope.

(** ** Data model (main.go, lines 16-27) *)

(** [type Session struct]; the field [Type] is spelled [Type_] because
    [Type] is reserved. *)
Record Session : Type := mkSession {
  Name : string;
  Path : string;
  Type_ : string;
  Tmuxinator : string
}.

(** [type ConfigSession struct]; [cType] is the [*string] field [Type],
    [None] standing for the nil pointer. *)
Record ConfigSession : Type := mkConfigSession {
  cType : option string;
  cPath : string;
  cTmuxinator : string
}.

Global Instance Session_eq_dec : EqDecision Session.
Proof. solve_decision. Defined.

(** A Go [error] value is represented by its message; [None] is [nil]. *)
Definition error : Type := option string.

(** The pair [(T, error)] returned by fallible Go functions. *)
Inductive result (A : Type) : Type :=
| Ok (a : A)
| Err (e : string).
Arguments Ok {A} a.
Arguments Err {A} e.

(** ** The pieces of package [strings] that the program uses *)

Definition newline : ascii := "010"%char.
Definition dot : ascii := "."%char.

(** [strings.ReplaceAll(s, old, new)] for a one-byte [old]. *)
Fixpoint ReplaceAll (s : string) (old : ascii) (new : string) : string :=
  match s with
  | EmptyString => EmptyString
  | String c r =>
      if Ascii.eqb c old then new +:+ ReplaceAll r old new
      else String c (ReplaceAll r old new)
  end.

(** [strings.Split(s, sep)] for a one-byte [sep]: always at least one piece. *)
Fixpoint Split (s : string) (sep : ascii) : list string :=
  match s with
  | EmptyString => [EmptyString]
  | String c r =>
      if Ascii.eqb c sep then EmptyString :: Split r sep
      else match Split r sep with
           | piece :: pieces => String c piece :: pieces
           | [] => [String c EmptyString]
           end
  end.

(** [strings.HasPrefix(s, prefix)]. *)
Definition HasPrefix (s pre : string) : bool := String.prefix pre s.

(** [s[n:]] for [n <= len(s)]. *)
Fixpoint sliceFrom (n : nat) (s : string) : string :=
  match n, s with
  | O, _ => s
  | S n', String _ r => sliceFrom n' r
  | S _, EmptyString => EmptyString
  end.

(** [strings.TrimPrefix(s, prefix)]. *)
Definition TrimPrefix (s pre : string) : string :=
  if HasPrefix s pre then sliceFrom (String.length pre) s else s.

(** [strings.Contains(s, ".")]: the byte occurs in the string. *)
Fixpoint containsByte (c : ascii) (s : string) : bool :=
  match s with
  | EmptyString => false
  | String d r => Ascii.eqb d c || containsByte c r
  end.

(** ** The outside world *)

(** What a run leaves behind: each external process started and each line
    printed, in order. *)
Inductive Event : Type :=
| EvOutput (argv : list string)
    (** [exec.Command(argv...).Output()] *)
| EvRun (argv : list string)
    (** [exec.Command(argv...).Run()] *)
| EvExec (argv0 : string) (argv : list string) (envv : list string)
    (** [syscall.Exec(argv0, argv, envv)] *)
| EvStdout (text : string)
| EvStderr (text : string)
| EvCobraError (msg : string)
    (** cobra's own report of an error returned by [RunE] (error line and
        usage text on standard error) *).

Global Instance Event_eq_dec : EqDecision Event.
Proof. solve_decision. Defined.

(** [os.Stat] as far as [loadConfig] looks at it. *)
Inductive StatResult : Type :=
| StatOk
| StatNotExist
| StatOtherError (e : string).

(** The operating system and the library functions whose code is not part
    of the program.  [W] is the state of the world; an oracle that can
    observe or change it returns the next state. *)
Record Sys (W : Type) : Type := mkSys {
  sys_Output : list string → W → result string * W;
  sys_Run : list string → W → error * W;
  sys_Exec : string → list string → list string → W → error * W;
  sys_LookPath : string → W → result string * W;
  sys_Getenv : string → W → string;
  sys_Environ : W → list string;
  sys_UserHomeDir : W → result string * W;
  sys_UserCurrent : W → result string * W;
  sys_Stat : string → W → StatResult * W;
  sys_ReadFile : string → W → result string * W;
  yaml_Unmarshal : string → result (list ConfigSession);
  filepath_Join : string → string → string;
  strings_TrimSpace : string → string
}.
Arguments sys_Output {W}.
Arguments sys_Run {W}.
Arguments sys_Exec {W}.
Arguments sys_LookPath {W}.
Arguments sys_Getenv {W}.
Arguments sys_Environ {W}.
Arguments sys_UserHomeDir {W}.
Arguments sys_UserCurrent {W}.
Arguments sys_Stat {W}.
Arguments sys_ReadFile {W}.
Arguments yaml_Unmarshal {W}.
Arguments filepath_Join {W}.
Arguments strings_TrimSpace {W}.

(** The state threaded through the program. *)
Record St (W : Type) : Type := mkSt {
  world : W;
  trace : list Event
}.
Arguments mkSt {W}.
Arguments world {W}.
Arguments trace {W}.

(** How a computation can end without returning to its caller. *)
Inductive Halt : Type :=
| Exit (code : Z)          (** [os.Exit(code)] *)
| Panic (msg : string)     (** [panic(err)] *)
| Replaced.                (** [syscall.Exec] succeeded *)

Inductive Res (A : Type) : Type :=
| Ret (a : A)
| Stop (h : Halt).
Arguments Ret {A} a.
Arguments Stop {A} h.

Definition M (W A : Type) : Type := St W → Res A * St W.

Global Instance M_ret {W} : MRet (M W) := λ A a s, (Ret a, s).

Global Instance M_bind {W} : MBind (M W) := λ A B f m s,
  match m s with
  | (Ret a, s') => f a s'
  | (Stop h, s') => (Stop h, s')
  end.

Definition halt {W A} (h : Halt) : M W A := λ s, (Stop h, s).

Definition emit {W} (e : Event) : M W unit :=
  λ s, (Ret tt, mkSt (world s) (trace s ++ [e])).

Definition call {W A} (f : W → A * W) : M W A :=
  λ s, let '(a, w) := f (world s) in (Ret a, mkSt w (trace s)).

Definition ask {W A} (f : W → A) : M W A := λ s, (Ret (f (world s)), s).

(** ** The program *)

Section Program.
Context {W : Type} (sys : Sys W).

(** *** Library calls, with their trace *)

Definition cmd_Output (argv : list string) : M W (result string) :=
  emit (EvOutput argv);; call (sys_Output sys argv).

Definition cmd_Run (argv : list string) : M W error :=
  emit (EvRun argv);; call (sys_Run sys argv).

Definition syscall_Exec (argv0 : string) (argv envv : list string) : M W error :=
  emit (EvExec argv0 argv envv);; call (sys_Exec sys argv0 argv envv).

Definition Println (text : string) : M W unit :=
  emit (EvStdout (text +:+ String newline EmptyString)).

Definition Fprintf_Stderr (text : string) : M W unit :=
  emit (EvStderr text).

(** *** Configuration (lines 29-66 and 300-309) *)

Definition configPath : string := ".config/mingle/mingle.yaml".

Definition getConfigPath : M W string :=
  r ← call (sys_UserHomeDir sys);
  match r with
  | Err e => halt (Panic e)
  | Ok homeDir => mret (filepath_Join sys homeDir configPath)
  end.

Definition expandHomePath (path : string) : M W (result string) :=
  if HasPrefix path "~" then
    r ← call (sys_UserCurrent sys);
    match r with
    | Err e => mret (Err e)
    | Ok homeDir => mret (Ok (filepath_Join sys homeDir (sliceFrom 1 path)))
    end
  else mret (Ok path).

(** The loop [for i := range config] of [loadConfig]; [done] holds the
    entries already rewritten. *)
Fixpoint expandConfig (done todo : list ConfigSession)
  : M W (result (list ConfigSession)) :=
  match todo with
  | [] => mret (Ok done)
  | c :: rest =>
      r ← expandHomePath (cPath c);
      match r with
      | Err e => mret (Err e)
      | Ok expandedPath =>
          expandConfig
            (done ++ [mkConfigSession (cType c) expandedPath (cTmuxinator c)])
            rest
      end
  end.

Definition loadConfig : M W (result (list ConfigSession)) :=
  filePath ← getConfigPath;
  st ← call (sys_Stat sys filePath);
  match st with
  | StatNotExist => Println "No config file was found";; mret (Ok [])
  | _ =>
      rd ← call (sys_ReadFile sys filePath);
      match rd with
      | Err e => mret (Err e)
      | Ok data =>
          match yaml_Unmarshal sys data with
          | Err e => mret (Err e)
          | Ok config => expandConfig [] config
          end
      end
  end.

(** *** Source adapters (lines 125-177) *)

(** The body of the loops over the lines of tmux's and zoxide's output. *)
Definition trimmedLines (output : string) : list string :=
  filter (λ trimmed, trimmed ≠ EmptyString)
         (strings_TrimSpace sys <$> Split output newline).

Definition getTmuxSessions : M W (list Session) :=
  r ← cmd_Output ["tmux"; "list-sessions"; "-F"; "#{session_name}"];
  match r with
  | Err _ => mret []
  | Ok output =>
      mret ((λ trimmed, mkSession trimmed EmptyString EmptyString EmptyString)
              <$> trimmedLines output)
  end.

Definition getZoxideResults : M W (list Session) :=
  r ← cmd_Output ["zoxide"; "query"; "-l"];
  match r with
  | Err _ => mret []
  | Ok output =>
      mret ((λ trimmed, mkSession trimmed trimmed EmptyString EmptyString)
              <$> trimmedLines output)
  end.

Definition getGitWorktrees (worktreeRoot : string) : M W (list string) :=
  r ← cmd_Output ["git"; "-C"; worktreeRoot; "worktree"; "list"; "--porcelain"];
  match r with
  | Err _ => mret []
  | Ok output =>
      mret ((λ line, strings_TrimSpace sys (TrimPrefix line "worktree "))
              <$> filter (λ line, HasPrefix line "worktree " = true)
                         (Split output newline))
  end.

(** *** Session aggregation (lines 68-123) *)

(** [c.Type != nil && *c.Type == "worktreeroot"] *)
Definition isWorktreeRoot (c : ConfigSession) : bool :=
  match cType c with
  | Some t => bool_decide (t = "worktreeroot")
  | None => false
  end.

(** The loop [for _, c := range config] (lines 79-95), carrying the two
    slices it appends to. *)
Fixpoint configLoop (configSessions configWorktreeSessions : list Session)
    (config : list ConfigSession) : M W (list Session * list Session) :=
  match config with
  | [] => mret (configSessions, configWorktreeSessions)
  | c :: rest =>
      if isWorktreeRoot c then
        worktrees ← getGitWorktrees (cPath c);
        configLoop configSessions
          (configWorktreeSessions ++
             ((λ w, mkSession w w (default EmptyString (cType c)) (cTmuxinator c))
                <$> worktrees))
          rest
      else
        configLoop
          (configSessions ++
             [mkSession (cPath c) (cPath c) EmptyString (cTmuxinator c)])
          configWorktreeSessions rest
  end.

(** The closure [addSession] (lines 100-107) acting on the captured
    variables [sessions] and [sessionNames]. *)
Definition addSession (acc : list Session * gset string) (s : Session)
  : list Session * gset string :=
  let '(sessions, sessionNames) := acc in
  let name := ReplaceAll (Name s) dot "_" in
  if decide (name ∈ sessionNames) then (sessions, sessionNames)
  else (sessions ++ [mkSession name (Path s) (Type_ s) (Tmuxinator s)],
        {[name]} ∪ sessionNames).

(** Lines 97-122: the four loops that feed [addSession]. *)
Definition mergeSessions
    (tmuxSessions configSessions configWorktreeSessions zoxideSessions : list Session)
  : list Session :=
  let acc := ([], ∅) in
  let acc := foldl addSession acc tmuxSessions in
  let acc := foldl addSession acc configSessions in
  let acc := foldl addSession acc configWorktreeSessions in
  let acc := foldl addSession acc zoxideSessions in
  acc.1.

Definition getSessions : M W (result (list Session)) :=
  r ← loadConfig;
  match r with
  | Err e => mret (Err e)
  | Ok config =>
      tmuxSessions ← getTmuxSessions;
      zoxideSessions ← getZoxideResults;
      '(configSessions, configWorktreeSessions) ← configLoop [] [] config;
      mret (Ok (mergeSessions tmuxSessions configSessions
                              configWorktreeSessions zoxideSessions))
  end.

(** *** Session creation and switching (lines 179-207, 311-313) *)

Definition switchToTmuxSession (sessionName : string) : M W error :=
  r ← cmd_Run ["tmux"; "switch-client"; "-t"; sessionName];
  match r with
  | Some e => mret (Some ("error switching to tmux session: " +:+ e))
  | None => mret None
  end.

Definition createTmuxSession (session : Session) : M W error :=
  if decide (Path session = EmptyString) then
    mret (Some "session path is missing, cannot create session")
  else if decide (Tmuxinator session ≠ EmptyString) then
    r ← cmd_Run ["sh"; "-c";
                 "cd " +:+ Path session +:+ " && yes | tmuxinator start -n "
                   +:+ Name session +:+ " -p " +:+ Tmuxinator session
                   +:+ " --no-attach"];
    match r with
    | Some e => mret (Some ("error starting tmuxinator session: " +:+ e))
    | None => mret None
    end
  else
    r ← cmd_Run ["tmux"; "new-session"; "-s"; Name session; "-d"; "-c"; Path session];
    match r with
    | Some e => mret (Some ("error creating new tmux session: " +:+ e))
    | None => mret None
    end.

Definition isInsideTmuxSession : M W bool :=
  v ← ask (sys_Getenv sys "TMUX");
  mret (bool_decide (v ≠ EmptyString)).

(** *** Commands (lines 209-298) *)

(** [RunE] of [listSessionsCmd]. *)
Definition listSessions_RunE (args : list string) : M W error :=
  r ← getSessions;
  match r with
  | Err e => mret (Some e)
  | Ok sessions =>
      mapM (λ session, Println (Name session)) sessions;; mret None
  end.

(** The loop of lines 243-249: the first session with the given name. *)
Definition selectSession (sessions : list Session) (sessionName : string)
  : option Session :=
  List.find (λ s, bool_decide (Name s = sessionName)) sessions.

(** The loop of lines 257-263. *)
Definition sessionExistsIn (tmuxSessions : list Session) (name : string) : bool :=
  existsb (λ s, bool_decide (Name s = name)) tmuxSessions.

(** [if !sessionExists { if err := createTmuxSession(...) ... }] *)
Definition ensureSession (sessionExists : bool) (selectedSession : Session)
  : M W error :=
  if sessionExists then mret None else createTmuxSession selectedSession.

(** Lines 265-293: create the session if it is missing, then switch the
    client (inside tmux) or replace the process by [tmux attach-session]. *)
Definition attachOrSwitch (sessionExists : bool) (selectedSession : Session)
    (sessionName : string) : M W error :=
  inside ← isInsideTmuxSession;
  if (inside : bool) then
    created ← ensureSession sessionExists selectedSession;
    match created with
    | Some e => mret (Some e)
    | None => switchToTmuxSession (Name selectedSession)
    end
  else
    created ← ensureSession sessionExists selectedSession;
    match created with
    | Some e => mret (Some e)
    | None =>
        lp ← call (sys_LookPath sys "tmux");
        match lp with
        | Err e =>
            Fprintf_Stderr ("Error finding tmux: " +:+ e
                              +:+ String newline EmptyString);;
            halt (Exit 1)
        | Ok tmuxPath =>
            let argv := ["tmux"; "attach-session"; "-t"; sessionName] in
            env ← ask (sys_Environ sys);
            x ← syscall_Exec tmuxPath argv env;
            match x with
            | Some e =>
                Fprintf_Stderr ("Error executing tmux: " +:+ e
                                  +:+ String newline EmptyString);;
                halt (Exit 1)
            | None => halt Replaced
            end
        end
    end.

(** [RunE] of [connectSessionCmd]. *)
Definition connectSession_RunE (args : list string) : M W error :=
  match args with
  | [] => mret None
  | sessionName :: _ =>
      r ← getSessions;
      match r with
      | Err e => mret (Some e)
      | Ok sessions =>
          match selectSession sessions sessionName with
          | None => mret (Some ("session " +:+ sessionName +:+ " not found"))
          | Some selectedSession =>
              tmuxSessions ← getTmuxSessions;
              let sessionExists :=
                sessionExistsIn tmuxSessions (Name selectedSession) in
              attachOrSwitch sessionExists selectedSession sessionName
          end
      end
  end.

(** [cobra.MaximumNArgs(n)]. *)
Definition MaximumNArgs (n : nat) (args : list string) : error :=
  if decide (n < length args)%nat then
    Some ("accepts at most " +:+ pretty n +:+ " arg(s), received "
            +:+ pretty (length args))
  else None.

(** The two subcommands registered on the root command, with the arguments
    that follow the subcommand's name on the command line. *)
Inductive Invocation : Type :=
| InvList (args : list string)
| InvConnect (args : list string).

(** [rootCmd.Execute()] for a command line that names a subcommand: the
    [Args] validator, then [RunE]; an error is reported by cobra and
    returned. *)
Definition Execute (inv : Invocation) : M W error :=
  r ← match inv with
      | InvList args => listSessions_RunE args
      | InvConnect args =>
          match MaximumNArgs 1 args with
          | Some e => mret (Some e)
          | None => connectSession_RunE args
          end
      end;
  match r with
  | Some e => emit (EvCobraError e);; mret (Some e)
  | None => mret None
  end.

(** [func main()], lines 315-328. *)
Definition main (inv : Invocation) : M W unit :=
  r ← Execute inv;
  match r with
  | Some e => Println e;; halt (Exit 1)
  | None => mret tt
  end.

End Program.

(** The exit status of the process, when it ends as itself: 0 when [main]
    returns, 2 for a panic that is not recovered. *)
Definition exitCode (r : Res unit) : option Z :=
  match r with
  | Ret _ => Some 0%Z
  | Stop (Exit code) => Some code
  | Stop (Panic _) => Some 2%Z
  | Stop Replaced => None
  end.

(** ** The catalog as the specification words it

    Independent definitions to compare [getSessions] with: normalise every
    name of the concatenated groups, then keep, of the sessions that share a
    name, the first one. *)

Definition normalizeName (name : string) : string := ReplaceAll name dot "_".

Definition normalize (s : Session) : Session :=
  mkSession (normalizeName (Name s)) (Path s) (Type_ s) (Tmuxinator s).

(** First occurrence wins: the head stays, and whatever is kept of the tail
    loses the entries that carry the head's name. *)
Fixpoint dedupeByName (l : list Session) : list Session :=
  match l with
  | [] => []
  | s :: rest => s :: filter (λ t, Name t ≠ Name s) (dedupeByName rest)
  end.

Definition catalogOf (tmux flat worktree zoxide : list Session) : list Session :=
  dedupeByName (normalize <$> (tmux ++ flat ++ worktree ++ zoxide)).

(** A plain configuration entry becomes one session named after its path. *)
Definition flatSessions (config : list ConfigSession) : list Session :=
  (λ c, mkSession (cPath c) (cPath c) EmptyString (cTmuxinator c))
    <$> filter (λ c, isWorktreeRoot c = false) config.

(** One session per worktree that the lister returns for a worktree-root
    entry, carrying the entry's type and template profile. *)
Definition worktreeSessionsOf (c : ConfigSession) (worktrees : list string)
  : list Session :=
  (λ w, mkSession w w "worktreeroot" (cTmuxinator c)) <$> worktrees.

(** The worktree-root entries expanded in configuration order, each by its
    own run of the worktree lister. *)
Fixpoint expandWorktreeRoots {W} (sys : Sys W) (config : list ConfigSession)
  : M W (list Session) :=
  match config with
  | [] => mret []
  | c :: rest =>
      if isWorktreeRoot c then
        worktrees ← getGitWorktrees sys (cPath c);
        more ← expandWorktreeRoots sys rest;
        mret (worktreeSessionsOf c worktrees ++ more)
      else expandWorktreeRoots sys rest
  end.

(** The command lines of the three listing queries. *)
Definition tmuxArgv : list string :=
  ["tmux"; "list-sessions"; "-F"; "#{session_name}"].
Definition zoxideArgv : list string := ["zoxide"; "query"; "-l"].
Definition gitArgv (worktreeRoot : string) : list string :=
  ["git"; "-C"; worktreeRoot; "worktree"; "list"; "--porcelain"].

(** The command lines that create a session: the tmuxinator launcher, run
    through the shell with [yes] answering its prompt, and tmux new-session,
    detached. *)
Definition tmuxinatorArgv (session : Session) : list string :=
  ["sh"; "-c";
   "cd " +:+ Path session +:+ " && yes | tmuxinator start -n " +:+ Name session
     +:+ " -p " +:+ Tmuxinator session +:+ " --no-attach"].
Definition newSessionArgv (session : Session) : list string :=
  ["tmux"; "new-session"; "-s"; Name session; "-d"; "-c"; Path session].

(** The line that [list] prints for a session. *)
Definition listedLine (x : Session) : Event :=
  EvStdout (Name x +:+ String newline EmptyString).

(** The tool behind a query fails in world [w]. *)
Definition toolFails {W} (sys : Sys W) (argv : list string) (w : W) : Prop :=
  ∃ e, (sys_Output sys argv w).1 = Err e.

(** ** Classifying the trace *)

(** The external commands that change something: the program starts them
    with [Run] (new-session, tmuxinator start, switch-client) or with
    [syscall.Exec] (attach-session); the listing queries go through
    [Output]. *)
Definition mutating (e : Event) : bool :=
  match e with
  | EvRun _ | EvExec _ _ _ => true
  | _ => false
  end.

(** A session-creation command: tmux new-session or the tmuxinator launcher. *)
Definition isCreation (e : Event) : bool :=
  match e with
  | EvRun ("tmux" :: "new-session" :: _) => true
  | EvRun ("sh" :: "-c" :: _) => true
  | _ => false
  end.

(** Something written for the user to read. *)
Definition isDiagnostic (e : Event) : bool :=
  match e with
  | EvStdout _ | EvStderr _ | EvCobraError _ => true
  | _ => false
  end.

(** A query, or the notice about the missing configuration file. *)
Definition isQueryOrNotice (e : Event) : bool :=
  match e with
  | EvOutput _ => true
  | EvStdout text =>
      bool_decide (text = "No config file was found" +:+ String newline EmptyString)
  | _ => false
  end.

(** What [m] adds to the trace satisfies [P], whatever the state. *)
Definition emits {W A} (P : Event → Prop) (m : M W A) : Prop :=
  ∀ s, ∃ evs, trace (m s).2 = trace s ++ evs ∧ Forall P evs.

(** ** A fixed world for examples *)

Module Fixture.

Definition isAsciiSpace (c : ascii) : bool :=
  bool_decide (c ∈ [" "%char; "009"%char; "010"%char; "011"%char;
                    "012"%char; "013"%char]).

Fixpoint trimLeft (s : string) : string :=
  match s with
  | String c r => if isAsciiSpace c then trimLeft r else s
  | EmptyString => EmptyString
  end.

Fixpoint trimRight (s : string) : string :=
  match s with
  | EmptyString => EmptyString
  | String c r =>
      match trimRight r with
      | EmptyString => if isAsciiSpace c then EmptyString else String c EmptyString
      | r' => String c r'
      end
  end.

(** [strings.TrimSpace] on strings of ASCII bytes. *)
Definition asciiTrimSpace (s : string) : string := trimRight (trimLeft s).

Definition lines (l : list string) : string :=
  foldr (λ x acc, x +:+ String newline acc) EmptyString l.

(** A world that never changes: what each tool answers, the parsed
    configuration, the value of TMUX and where tmux is found. *)
Record World : Type := mkWorld {
  tmuxOut : result string;
  zoxideOut : result string;
  gitOut : string → result string;
  config : result (list ConfigSession);
  envTMUX : string;
  tmuxPath : result string;
  runResult : list string → error
}.

Definition sys (x : World) : Sys unit := {|
  sys_Output := λ argv w,
    (match argv with
     | "tmux" :: _ => tmuxOut x
     | "zoxide" :: _ => zoxideOut x
     | "git" :: "-C" :: root :: _ => gitOut x root
     | _ => Err "executable file not found in $PATH"
     end, w);
  sys_Run := λ argv w, (runResult x argv, w);
  sys_Exec := λ _ _ _ w, (None, w);
  sys_LookPath := λ _ w, (tmuxPath x, w);
  sys_Getenv := λ name _, if bool_decide (name = "TMUX") then envTMUX x else EmptyString;
  sys_Environ := λ _, ["HOME=/home/u"];
  sys_UserHomeDir := λ w, (Ok "/home/u", w);
  sys_UserCurrent := λ w, (Ok "/home/u", w);
  sys_Stat := λ _ w, (StatOk, w);
  sys_ReadFile := λ _ w, (Ok "- path: /src", w);
  yaml_Unmarshal := λ _, config x;
  filepath_Join := λ a b, a +:+ "/" +:+ b;
  strings_TrimSpace := asciiTrimSpace
|}.

Definition start : St unit := mkSt tt [].

Definition plain (path : string) : ConfigSession :=
  mkConfigSession None path EmptyString.

(** tmux runs [work] and [a_b]; the configuration lists [/src/a.b], a
    worktree root [/repo] and [work] with a template profile; zoxide knows
    [/src/a_b] and [/tmp/x.y.z]. *)
Definition busy : World := {|
  tmuxOut := Ok (lines ["work"; "a_b"]);
  zoxideOut := Ok (lines ["/src/a_b"; "/tmp/x.y.z"]);
  gitOut := λ root,
    if bool_decide (root = "/repo")
    then Ok (lines ["worktree /repo"; "HEAD abc"; "worktree /repo/wt.1"])
    else Err "exit status 128";
  config := Ok [plain "/src/a.b";
                mkConfigSession (Some "worktreeroot") "/repo" "dev";
                mkConfigSession None "work" "dev"];
  envTMUX := "/tmp/tmux-1000/default,1,0";
  tmuxPath := Ok "/usr/bin/tmux";
  runResult := λ _, None
|}.

(** The same machine with none of the listing tools working. *)
Definition broken : World := {|
  tmuxOut := Err "exit status 1";
  zoxideOut := Err "executable file not found in $PATH";
  gitOut := λ _, Err "exit status 128";
  config := config busy;
  envTMUX := EmptyString;
  tmuxPath := Err "executable file not found in $PATH";
  runResult := λ _, Some "exit status 1"
|}.

(** A machine whose only configured session is a worktree root and
    whose listing tools all fail. *)
Definition silent : World := {|
  tmuxOut := Err "exit status 1";
  zoxideOut := Err "executable file not found in $PATH";
  gitOut := λ _, Err "exit status 128";
  config := Ok [mkConfigSession (Some "worktreeroot") "/repo" EmptyString];
  envTMUX := EmptyString;
  tmuxPath := Err "executable file not found in $PATH";
  runResult := λ _, Some "exit status 1"
|}.

(** The catalog of the busy machine and the state that building it
    leaves. *)
Definition busyCatalog : list Session :=
  Eval vm_compute in
    match getSessions (sys busy) start with
    | (Ret (Ok sessions), _) => sessions
    | _ => []
    end.

Definition afterCatalog : St unit :=
  Eval vm_compute in (getSessions (sys busy) start).2.

Definition afterRecheck : St unit :=
  Eval vm_compute in (getTmuxSessions (sys busy) afterCatalog).2.

(** The same for the broken machine, up to the failed attempt to create
    the session /src/a_b. *)
Definition brokenCatalog : list Session :=
  Eval vm_compute in
    match getSessions (sys broken) start with
    | (Ret (Ok sessions), _) => sessions
    | _ => []
    end.

Definition afterBrokenCatalog : St unit :=
  Eval vm_compute in (getSessions (sys broken) start).2.

Definition afterBrokenRecheck : St unit :=
  Eval vm_compute in (getTmuxSessions (sys broken) afterBrokenCatalog).2.

Definition src_a_b : Session := mkSession "/src/a_b" "/src/a.b" EmptyString EmptyString.

Definition afterBrokenCreate : St unit :=
  Eval vm_compute in (createTmuxSession (sys broken) src_a_b afterBrokenRecheck).2.

Definition busyTmux : list Session :=
  [mkSession "work" EmptyString EmptyString EmptyString;
   mkSession "a_b" EmptyString EmptyString EmptyString].

End Fixture.

(** ** The earlier version of the aggregation

    The repository also holds the version of [main.go] that preceded the
    deduplicating one.  Its [loadConfig], [expandHomePath],
    [createTmuxSession] and [switchToTmuxSession] are the same text; its
    listers return an error instead of an empty list, its [getSessions]
    gives up at the first error and does not deduplicate, and its connect
    always switches the client. *)

Module Legacy.
Section Program.
Context {W : Type} (sys : Sys W).

(** The loop over the lines of a lister's output, as in the current
    version. *)
Definition trimmedLines (output : string) : list string :=
  filter (λ trimmed, trimmed ≠ EmptyString)
         (strings_TrimSpace sys <$> Split output newline).

Definition getTmuxSessions : M W (result (list Session)) :=
  r ← cmd_Output sys ["tmux"; "list-sessions"; "-F"; "#{session_name}"];
  match r with
  | Err e => mret (Err ("error executing tmux command: " +:+ e))
  | Ok output =>
      mret (Ok ((λ trimmed, mkSession trimmed EmptyString EmptyString EmptyString)
                  <$> trimmedLines output))
  end.

Definition getZoxideResults : M W (result (list Session)) :=
  r ← cmd_Output sys ["zoxide"; "query"; "-l"];
  match r with
  | Err e => mret (Err ("error executing zoxide command: " +:+ e))
  | Ok output =>
      mret (Ok ((λ trimmed, mkSession trimmed trimmed EmptyString EmptyString)
                  <$> trimmedLines output))
  end.

Definition getGitWorktrees (worktreeRoot : string) : M W (result (list string)) :=
  r ← cmd_Output sys ["git"; "-C"; worktreeRoot; "worktree"; "list"; "--porcelain"];
  match r with
  | Err e => mret (Err ("error fetching git worktrees: " +:+ e))
  | Ok output =>
      mret (Ok ((λ line, strings_TrimSpace sys (TrimPrefix line "worktree "))
                  <$> filter (λ line, HasPrefix line "worktree " = true)
                             (Split output newline)))
  end.

(** The loop [for _, c := range config], which returns the error of the
    first worktree listing that fails. *)
Fixpoint configLoop (configSessions configWorktreeSessions : list Session)
    (config : list ConfigSession) : M W (result (list Session * list Session)) :=
  match config with
  | [] => mret (Ok (configSessions, configWorktreeSessions))
  | c :: rest =>
      if isWorktreeRoot c then
        r ← getGitWorktrees (cPath c);
        match r with
        | Err e => mret (Err e)
        | Ok worktrees =>
            configLoop configSessions
              (configWorktreeSessions ++
                 ((λ w, mkSession w w (default EmptyString (cType c)) (cTmuxinator c))
                    <$> worktrees))
              rest
        end
      else
        configLoop
          (configSessions ++
             [mkSession (cPath c) (cPath c) EmptyString (cTmuxinator c)])
          configWorktreeSessions rest
  end.

(** The loop [for i, s := range sessions] that rewrites the names in
    place. *)
Definition replaceDots (sessions : list Session) : list Session :=
  (λ s, mkSession (ReplaceAll (Name s) dot "_") (Path s) (Type_ s) (Tmuxinator s))
    <$> sessions.

Definition getSessions : M W (result (list Session)) :=
  r ← loadConfig sys;
  match r with
  | Err e => mret (Err e)
  | Ok config =>
      rt ← getTmuxSessions;
      match rt with
      | Err e => mret (Err e)
      | Ok tmuxSessions =>
          rz ← getZoxideResults;
          match rz with
          | Err e => mret (Err e)
          | Ok zoxideSessions =>
              rc ← configLoop [] [] config;
              match rc with
              | Err e => mret (Err e)
              | Ok (configSessions, configWorktreeSessions) =>
                  mret (Ok (replaceDots
                              (tmuxSessions ++ configSessions
                                 ++ configWorktreeSessions ++ zoxideSessions)))
              end
          end
      end
  end.

(** [RunE] of the earlier [connectSessionCmd]. *)
Definition connectSession_RunE (args : list string) : M W error :=
  match args with
  | [] => mret None
  | sessionName :: _ =>
      r ← getSessions;
      match r with
      | Err e => mret (Some e)
      | Ok sessions =>
          match selectSession sessions sessionName with
          | None => mret (Some ("session " +:+ sessionName +:+ " not found"))
          | Some selectedSession =>
              rt ← getTmuxSessions;
              match rt with
              | Err e => mret (Some e)
              | Ok tmuxSessions =>
                  created ←
                    ensureSession sys
                      (sessionExistsIn tmuxSessions (Name selectedSession))
                      selectedSession;
                  match created with
                  | Some e => mret (Some e)
                  | None => switchToTmuxSession sys (Name selectedSession)
                  end
              end
          end
      end
  end.

End Program.
End Legacy.

(** ** Further vocabulary for the properties *)

(** [lines] joined, each followed by a newline: what a tool prints. *)
Definition unlines (lines : list string) : string :=
  foldr (λ line rest, line +:+ String newline rest) EmptyString lines.

(** What [git worktree list --porcelain] prints: a record for each worktree,
    made of the line that gives its path, its other attribute lines (HEAD,
    branch, ...) and an empty line. *)
Definition porcelainLines (entry : string * list string) : list string :=
  ("worktree " +:+ entry.1) :: entry.2 ++ [EmptyString].

Definition porcelain (entries : list (string * list string)) : string :=
  unlines (entries ≫= porcelainLines).

(** A line as a lister keeps it: no newline in it, not blank, nothing for
    [strings.TrimSpace] to remove. *)
Definition cleanLine {W} (sys : Sys W) (line : string) : Prop :=
  containsByte newline line = false ∧
  strings_TrimSpace sys line = line ∧
  line ≠ EmptyString.

(** The command that [createTmuxSession] runs for a session with a path. *)
Definition createArgv (session : Session) : list string :=
  if decide (Tmuxinator session ≠ EmptyString) then tmuxinatorArgv session
  else newSessionArgv session.

(** The line printed when there is no configuration file. *)
Definition notice : Event :=
  EvStdout ("No config file was found" +:+ String newline EmptyString).

Definition switchArgv (name : string) : list string :=
  ["tmux"; "switch-client"; "-t"; name].

Definition attachArgv (name : string) : list string :=
  ["tmux"; "attach-session"; "-t"; name].

(** What is left of [attachOrSwitch] once the session is there, in the
    state [s] and with the value that TMUX had. *)
Definition finish {W} (sys : Sys W) (inside : bool) (sel : Session)
    (target : string) (s : St W)
  : Res error * St W :=
  if inside then switchToTmuxSession sys (Name sel) s
  else
    match sys_LookPath sys "tmux" (world s) with
    | (Err e, w) =>
        (Stop (Exit 1),
         mkSt w (trace s ++ [EvStderr ("Error finding tmux: " +:+ e
                                         +:+ String newline EmptyString)]))
    | (Ok tmuxPath, w) =>
        match sys_Exec sys tmuxPath (attachArgv target) (sys_Environ sys w) w with
        | (Some e, w') =>
            (Stop (Exit 1),
             mkSt w' (trace s ++
                        [EvExec tmuxPath (attachArgv target) (sys_Environ sys w);
                         EvStderr ("Error executing tmux: " +:+ e
                                     +:+ String newline EmptyString)]))
        | (None, w') =>
            (Stop Replaced,
             mkSt w' (trace s ++
                        [EvExec tmuxPath (attachArgv target) (sys_Environ sys w)]))
        end
    end.

(** What one configuration entry may become when [loadConfig] expands the
    home directory: only the path changes, and only when it starts with a
    tilde. *)
Definition expandedFrom {W} (sys : Sys W) (c c' : ConfigSession) : Prop :=
  cType c' = cType c ∧
  cTmuxinator c' = cTmuxinator c ∧
  if HasPrefix (cPath c) "~"
  then ∃ homeDir, cPath c' = filepath_Join sys homeDir (sliceFrom 1 (cPath c))
  else cPath c' = cPath c.

(** ** Further machines for examples *)

Module Host.

(** A machine of [Fixture] with, in addition, what the home directory
    lookups, the configuration file and [syscall.Exec] answer. *)
Record Machine : Type := mkMachine {
  base : Fixture.World;
  homeDir : result string;
  currentUser : result string;
  stat : StatResult;
  file : result string;
  execResult : error
}.

Definition sys (m : Machine) : Sys unit := {|
  sys_Output := sys_Output (Fixture.sys (base m));
  sys_Run := sys_Run (Fixture.sys (base m));
  sys_Exec := λ _ _ _ w, (execResult m, w);
  sys_LookPath := sys_LookPath (Fixture.sys (base m));
  sys_Getenv := sys_Getenv (Fixture.sys (base m));
  sys_Environ := sys_Environ (Fixture.sys (base m));
  sys_UserHomeDir := λ w, (homeDir m, w);
  sys_UserCurrent := λ w, (currentUser m, w);
  sys_Stat := λ _ w, (stat m, w);
  sys_ReadFile := λ _ w, (file m, w);
  yaml_Unmarshal := λ _, Fixture.config (base m);
  filepath_Join := λ a b, a +:+ b;
  strings_TrimSpace := Fixture.asciiTrimSpace
|}.

(** The busy machine without a configuration file. *)
Definition noConfigFile : Machine :=
  mkMachine Fixture.busy (Ok "/home/u") (Ok "/home/u") StatNotExist
            (Err "no such file") None.

(** The busy machine with a configuration file that does not parse. *)
Definition badYaml : Machine :=
  mkMachine
    {| Fixture.tmuxOut := Fixture.tmuxOut Fixture.busy;
       Fixture.zoxideOut := Fixture.zoxideOut Fixture.busy;
       Fixture.gitOut := Fixture.gitOut Fixture.busy;
       Fixture.config := Err "yaml: line 1: did not find expected key";
       Fixture.envTMUX := Fixture.envTMUX Fixture.busy;
       Fixture.tmuxPath := Fixture.tmuxPath Fixture.busy;
       Fixture.runResult := Fixture.runResult Fixture.busy |}
    (Ok "/home/u") (Ok "/home/u") StatOk (Ok "path: [") None.

(** The busy machine with no home directory to be found. *)
Definition homeless : Machine :=
  mkMachine Fixture.busy (Err "$HOME is not defined") (Err "user: unknown userid")
            StatOk (Ok "- path: /src") None.

(** A configuration with home-relative paths. *)
Definition tildeWorld : Fixture.World := {|
  Fixture.tmuxOut := Ok EmptyString;
  Fixture.zoxideOut := Ok EmptyString;
  Fixture.gitOut := λ _, Err "exit status 128";
  Fixture.config := Ok [mkConfigSession None "~/src" "dev";
                        mkConfigSession (Some "worktreeroot") "/repo" EmptyString;
                        mkConfigSession (Some "other") "~" EmptyString];
  Fixture.envTMUX := EmptyString;
  Fixture.tmuxPath := Ok "/usr/bin/tmux";
  Fixture.runResult := λ _, None
|}.

Definition tilde : Machine :=
  mkMachine tildeWorld (Ok "/home/u") (Ok "/home/u") StatOk (Ok "- path: ~/src") None.

(** A machine on which git prints a porcelain listing of two worktrees. *)
Definition porcelainWorld : Fixture.World := {|
  Fixture.tmuxOut := Ok EmptyString;
  Fixture.zoxideOut := Ok EmptyString;
  Fixture.gitOut := λ _,
    Ok (porcelain [("/repo", ["HEAD 1f2e3d"; "branch refs/heads/main"]);
                   ("/repo/wt.1", ["HEAD 4c5b6a"; "detached"])]);
  Fixture.config := Ok [mkConfigSession (Some "worktreeroot") "/repo" "dev"];
  Fixture.envTMUX := EmptyString;
  Fixture.tmuxPath := Ok "/usr/bin/tmux";
  Fixture.runResult := λ _, None
|}.

(** The busy machine seen from a shell that is not inside tmux. *)
Definition outsideWorld : Fixture.World := {|
  Fixture.tmuxOut := Fixture.tmuxOut Fixture.busy;
  Fixture.zoxideOut := Fixture.zoxideOut Fixture.busy;
  Fixture.gitOut := Fixture.gitOut Fixture.busy;
  Fixture.config := Fixture.config Fixture.busy;
  Fixture.envTMUX := EmptyString;
  Fixture.tmuxPath := Fixture.tmuxPath Fixture.busy;
  Fixture.runResult := Fixture.runResult Fixture.busy
|}.

Definition outside : Machine :=
  mkMachine outsideWorld (Ok "/home/u") (Ok "/home/u") StatOk (Ok "- path: /src") None.

(** The same with a [syscall.Exec] that fails. *)
Definition outsideNoExec : Machine :=
  mkMachine outsideWorld (Ok "/home/u") (Ok "/home/u") StatOk (Ok "- path: /src")
            (Some "exec format error").

(** A machine, inside tmux, on which switch-client fails. *)
Definition noSwitchWorld : Fixture.World := {|
  Fixture.tmuxOut := Fixture.tmuxOut Fixture.busy;
  Fixture.zoxideOut := Fixture.zoxideOut Fixture.busy;
  Fixture.gitOut := Fixture.gitOut Fixture.busy;
  Fixture.config := Fixture.config Fixture.busy;
  Fixture.envTMUX := Fixture.envTMUX Fixture.busy;
  Fixture.tmuxPath := Fixture.tmuxPath Fixture.busy;
  Fixture.runResult := λ _, Some "exit status 1"
|}.

End Host.

Module Flaky.

(** A world that counts the tmux queries: the first one reports the session
    [ghost], which is gone when tmux is asked again.  No configuration
    file, no zoxide. *)
Definition sys : Sys nat := {|
  sys_Output := λ argv n,
    match argv with
    | "tmux" :: _ =>
        (match n with
         | O => Ok (unlines ["ghost"])
         | S _ => Ok EmptyString
         end, S n)
    | _ => (Err "executable file not found in $PATH", n)
    end;
  sys_Run := λ _ n, (None, n);
  sys_Exec := λ _ _ _ n, (None, n);
  sys_LookPath := λ _ n, (Ok "/usr/bin/tmux", n);
  sys_Getenv := λ _ _, EmptyString;
  sys_Environ := λ _, [];
  sys_UserHomeDir := λ n, (Ok "/home/u", n);
  sys_UserCurrent := λ n, (Ok "/home/u", n);
  sys_Stat := λ _ n, (StatNotExist, n);
  sys_ReadFile := λ _ n, (Err "no such file", n);
  yaml_Unmarshal := λ _, Ok [];
  filepath_Join := λ a b, a +:+ b;
  strings_TrimSpace := Fixture.asciiTrimSpace
|}.

Definition start : St nat := mkSt 0 [].

End Flaky.

(** ** The model on concrete inputs *)

Example Split_lines :
  Split (Fixture.lines ["work"; "a_b"]) newline = ["work"; "a_b"; EmptyString].
Proof. reflexivity. Qed.

Example ReplaceAll_dots : ReplaceAll "/tmp/x.y.z" dot "_" = "/tmp/x_y_z".
Proof. reflexivity. Qed.

Example TrimPrefix_worktree :
  TrimPrefix "worktree /repo/wt.1" "worktree " = "/repo/wt.1".
Proof. reflexivity. Qed.

(** The live sessions come first, then the configuration, the worktrees of
    /repo and the directories of zoxide; the configured [work] and zoxide's
    [/src/a_b] are dropped as duplicates. *)
Example busyCatalog_value :
  Fixture.busyCatalog =
  [mkSession "work" EmptyString EmptyString EmptyString;
   mkSession "a_b" EmptyString EmptyString EmptyString;
   mkSession "/src/a_b" "/src/a.b" EmptyString EmptyString;
   mkSession "/repo" "/repo" "worktreeroot" "dev";
   mkSession "/repo/wt_1" "/repo/wt.1" "worktreeroot" "dev";
   mkSession "/tmp/x_y_z" "/tmp/x.y.z" EmptyString EmptyString].
Proof. reflexivity. Qed.

Example busy_connect_work :
  main (Fixture.sys Fixture.busy) (InvConnect ["work"]) Fixture.start =
  (Ret tt,
   mkSt tt [EvOutput tmuxArgv; EvOutput zoxideArgv; EvOutput (gitArgv "/repo");
            EvOutput tmuxArgv; EvRun ["tmux"; "switch-client"; "-t"; "work"]]).
Proof. vm_compute. reflexivity. Qed.

Example broken_list :
  main (Fixture.sys Fixture.broken) (InvList []) Fixture.start =
  (Ret tt,
   mkSt tt [EvOutput tmuxArgv; EvOutput zoxideArgv; EvOutput (gitArgv "/repo");
            listedLine (mkSession "/src/a_b" "/src/a.b" EmptyString EmptyString);
            listedLine (mkSession "work" "work" EmptyString "dev")]).
Proof. vm_compute. reflexivity. Qed.

(** ** Running monadic code *)

Section Running.
Context {W : Type}.

Lemma bind_run {A B} (m : M W A) (f : A → M W B) (s : St W) :
  (m ≫= f) s =
  match m s with
  | (Ret a, s') => f a s'
  | (Stop h, s') => (Stop h, s')
  end.
Proof. reflexivity. Qed.

Lemma bind_Ret {A B} (m : M W A) (f : A → M W B) (s s' : St W) (a : A) :
  m s = (Ret a, s') → (m ≫= f) s = f a s'.
Proof. intros H. rewrite bind_run, H. reflexivity. Qed.

Lemma bind_Stop {A B} (m : M W A) (f : A → M W B) (s s' : St W) (h : Halt) :
  m s = (Stop h, s') → (m ≫= f) s = (Stop h, s').
Proof. intros H. rewrite bind_run, H. reflexivity. Qed.

Lemma emits_ret {A} (P : Event → Prop) (a : A) : emits P (mret a : M W A).
Proof. intros s. exists []. simpl. by rewrite app_nil_r. Qed.

Lemma emits_halt {A} (P : Event → Prop) (h : Halt) : emits P (halt h : M W A).
Proof. intros s. exists []. simpl. by rewrite app_nil_r. Qed.

Lemma emits_ask {A} (P : Event → Prop) (f : W → A) : emits P (ask f).
Proof. intros s. exists []. simpl. by rewrite app_nil_r. Qed.

Lemma emits_call {A} (P : Event → Prop) (f : W → A * W) : emits P (call f).
Proof.
  intros s. exists []. unfold call. destruct (f (world s)); simpl.
  by rewrite app_nil_r.
Qed.

Lemma emits_emit (P : Event → Prop) (e : Event) : P e → emits P (emit (W:=W) e).
Proof. intros He s. exists [e]. simpl. split; [done | by constructor]. Qed.

Lemma emits_bind {A B} (P : Event → Prop) (m : M W A) (f : A → M W B) :
  emits P m → (∀ a, emits P (f a)) → emits P (m ≫= f).
Proof.
  intros Hm Hf s. rewrite bind_run.
  destruct (Hm s) as (evs1 & E1 & F1).
  destruct (m s) as [[a | h] s1]; simpl in E1.
  - destruct (Hf a s1) as (evs2 & E2 & F2).
    exists (evs1 ++ evs2). split.
    + by rewrite E2, E1, app_assoc.
    + by apply Forall_app.
  - exists evs1. done.
Qed.

(** What [emits] says about one run. *)
Lemma emits_run {A} (P : Event → Prop) (m : M W A) (s s' : St W) (r : Res A) :
  emits P m → m s = (r, s') → ∃ evs, trace s' = trace s ++ evs ∧ Forall P evs.
Proof. intros Hm E. specialize (Hm s). by rewrite E in Hm. Qed.

End Running.

(** ** Names *)

Lemma normalizeName_no_dot (name : string) :
  containsByte dot (normalizeName name) = false.
Proof.
  unfold normalizeName. induction name as [| c r IH]; [done |].
  simpl. destruct (Ascii.eqb c dot) eqn:E; simpl.
  - exact IH.
  - rewrite E. exact IH.
Qed.

(** ** Deduplication *)

Lemma filter_all {A} (P : A → Prop) `{!∀ x, Decision (P x)} (l : list A) :
  Forall P l → filter P l = l.
Proof.
  induction 1 as [| x l Hx _ IH]; [done |].
  by rewrite filter_cons_True, IH.
Qed.

Lemma filter_none {A} (P : A → Prop) `{!∀ x, Decision (P x)} (l : list A) :
  Forall (λ x, ¬ P x) l → filter P l = [].
Proof.
  induction 1 as [| x l Hx _ IH]; [done |].
  by rewrite filter_cons_False.
Qed.

Lemma filter_comm {A} (P Q : A → Prop)
    `{!∀ x, Decision (P x), !∀ x, Decision (Q x)} (l : list A) :
  filter P (filter Q l) = filter Q (filter P l).
Proof. rewrite !list_filter_filter. apply list_filter_iff. tauto. Qed.

Lemma dedupeByName_subseteq (l : list Session) : dedupeByName l ⊆ l.
Proof.
  induction l as [| s r IH]; simpl; [done |].
  intros x Hx. apply elem_of_cons in Hx as [-> | Hx]; [left |].
  right. apply IH. by apply list_elem_of_filter in Hx as [_ Hx].
Qed.

Lemma dedupeByName_names (l : list Session) (n : string) :
  n ∈ Name <$> dedupeByName l ↔ n ∈ Name <$> l.
Proof.
  induction l as [| s r IH]; simpl; [done |].
  rewrite !elem_of_cons, <- IH. split.
  - intros [-> | H]; [by left | right].
    apply list_elem_of_fmap in H as (t & -> & Ht).
    apply list_elem_of_filter in Ht as [_ Ht].
    apply list_elem_of_fmap. eauto.
  - intros [-> | H]; [by left |].
    destruct (decide (n = Name s)) as [-> | Hne]; [by left | right].
    apply list_elem_of_fmap in H as (t & -> & Ht).
    apply list_elem_of_fmap. exists t. split; [done |].
    apply list_elem_of_filter. done.
Qed.

Lemma NoDup_names_filter (P : Session → Prop) `{∀ x, Decision (P x)}
    (l : list Session) :
  NoDup (Name <$> l) → NoDup (Name <$> filter P l).
Proof.
  intros Hnd. eapply sublist_NoDup; [exact Hnd |].
  apply fmap_sublist, sublist_filter.
Qed.

Lemma dedupeByName_NoDup (l : list Session) : NoDup (Name <$> dedupeByName l).
Proof.
  induction l as [| s r IH]; simpl; [constructor |].
  constructor.
  - intros H. apply list_elem_of_fmap in H as (t & E & Ht).
    apply list_elem_of_filter in Ht as [Hne _]. congruence.
  - by apply NoDup_names_filter.
Qed.

(** The entries of the deduplicated list under one name: the first session
    of the input that carries it, alone. *)
Lemma dedupeByName_filter_name (l : list Session) (n : string) :
  filter (λ t, Name t = n) (dedupeByName l) = take 1 (filter (λ t, Name t = n) l).
Proof.
  induction l as [| s r IH]; simpl; [done |].
  destruct (decide (Name s = n)) as [E | Hne].
  - rewrite !filter_cons_True by done. simpl. f_equal.
    rewrite list_filter_filter. apply filter_none, Forall_forall.
    intros t _ [H1 H2]. congruence.
  - rewrite !filter_cons_False by done. rewrite <- IH.
    rewrite list_filter_filter. apply list_filter_iff.
    intros t. split; [tauto |]. intros Ht. split; [done | congruence].
Qed.

Lemma dedupeByName_first (pre post : list Session) (s : Session) :
  Name s ∉ Name <$> pre →
  filter (λ t, Name t = Name s) (dedupeByName (pre ++ s :: post)) = [s].
Proof.
  intros Hpre. rewrite dedupeByName_filter_name, filter_app.
  rewrite (filter_none _ pre).
  - by rewrite filter_cons_True.
  - apply Forall_forall. intros t Ht E. apply Hpre.
    apply list_elem_of_fmap. eauto.
Qed.

(** ** The merge loop against the specification's catalog *)

Lemma addSession_foldl (l : list Session) (acc : list Session) (seen : gset string) :
  (foldl addSession (acc, seen) l).1 =
  acc ++ filter (λ t, Name t ∉ seen) (dedupeByName (normalize <$> l)).
Proof.
  revert acc seen. induction l as [| s r IH]; intros acc seen; simpl.
  - by rewrite app_nil_r.
  - fold (normalizeName (Name s)). destruct (decide (normalizeName (Name s) ∈ seen)) as [Hin | Hout].
    + rewrite IH. f_equal.
      rewrite filter_cons_False by (simpl; tauto).
      rewrite list_filter_filter. apply list_filter_iff.
      intros t. split; [| tauto]. intros Ht. split; [done |].
      simpl. intros E. apply Ht. by rewrite E.
    + rewrite IH. rewrite <- app_assoc. f_equal. simpl.
      rewrite filter_cons_True by done. f_equal.
      rewrite list_filter_filter. apply list_filter_iff.
      intros t. simpl.
      rewrite not_elem_of_union, not_elem_of_singleton. tauto.
Qed.

Lemma mergeSessions_catalogOf (tmux flat worktree zoxide : list Session) :
  mergeSessions tmux flat worktree zoxide = catalogOf tmux flat worktree zoxide.
Proof.
  unfold mergeSessions, catalogOf.
  rewrite <- !foldl_app, addSession_foldl. simpl.
  apply filter_all, Forall_forall. set_solver.
Qed.

(** ** The adapters, run *)

Section Adapters.
Context {W : Type} (sys : Sys W).

Lemma cmd_Output_run (argv : list string) (s : St W) :
  cmd_Output sys argv s =
  (Ret (sys_Output sys argv (world s)).1,
   mkSt (sys_Output sys argv (world s)).2 (trace s ++ [EvOutput argv])).
Proof.
  unfold cmd_Output. rewrite bind_run. simpl. unfold call. simpl.
  by destruct (sys_Output sys argv (world s)).
Qed.

Lemma cmd_Run_run (argv : list string) (s : St W) :
  cmd_Run sys argv s =
  (Ret (sys_Run sys argv (world s)).1,
   mkSt (sys_Run sys argv (world s)).2 (trace s ++ [EvRun argv])).
Proof.
  unfold cmd_Run. rewrite bind_run. simpl. unfold call. simpl.
  by destruct (sys_Run sys argv (world s)).
Qed.

(** Each lister returns, whatever its tool does, and leaves one query in
    the trace. *)
Lemma getTmuxSessions_run (s : St W) :
  ∃ l, getTmuxSessions sys s =
       (Ret l, mkSt (sys_Output sys tmuxArgv (world s)).2
                    (trace s ++ [EvOutput tmuxArgv])).
Proof.
  unfold getTmuxSessions. rewrite bind_run, cmd_Output_run. fold tmuxArgv.
  destruct (sys_Output sys tmuxArgv (world s)).1; eexists; reflexivity.
Qed.

Lemma getZoxideResults_run (s : St W) :
  ∃ l, getZoxideResults sys s =
       (Ret l, mkSt (sys_Output sys zoxideArgv (world s)).2
                    (trace s ++ [EvOutput zoxideArgv])).
Proof.
  unfold getZoxideResults. rewrite bind_run, cmd_Output_run. fold zoxideArgv.
  destruct (sys_Output sys zoxideArgv (world s)).1; eexists; reflexivity.
Qed.

Lemma getGitWorktrees_run (root : string) (s : St W) :
  ∃ l, getGitWorktrees sys root s =
       (Ret l, mkSt (sys_Output sys (gitArgv root) (world s)).2
                    (trace s ++ [EvOutput (gitArgv root)])).
Proof.
  unfold getGitWorktrees. rewrite bind_run, cmd_Output_run. fold (gitArgv root).
  destruct (sys_Output sys (gitArgv root) (world s)).1; eexists; reflexivity.
Qed.

(** A lister whose tool fails returns the empty list. *)
Lemma getTmuxSessions_failed (s : St W) (e : string) (w : W) :
  sys_Output sys tmuxArgv (world s) = (Err e, w) →
  getTmuxSessions sys s = (Ret [], mkSt w (trace s ++ [EvOutput tmuxArgv])).
Proof.
  intros H. unfold getTmuxSessions. rewrite bind_run, cmd_Output_run.
  fold tmuxArgv. by rewrite H.
Qed.

Lemma getZoxideResults_failed (s : St W) (e : string) (w : W) :
  sys_Output sys zoxideArgv (world s) = (Err e, w) →
  getZoxideResults sys s = (Ret [], mkSt w (trace s ++ [EvOutput zoxideArgv])).
Proof.
  intros H. unfold getZoxideResults. rewrite bind_run, cmd_Output_run.
  fold zoxideArgv. by rewrite H.
Qed.

Lemma getGitWorktrees_failed (root : string) (s : St W) (e : string) (w : W) :
  sys_Output sys (gitArgv root) (world s) = (Err e, w) →
  getGitWorktrees sys root s =
  (Ret [], mkSt w (trace s ++ [EvOutput (gitArgv root)])).
Proof.
  intros H. unfold getGitWorktrees. rewrite bind_run, cmd_Output_run.
  fold (gitArgv root). by rewrite H.
Qed.

(** A session that comes from the multiplexer lister has a name and
    nothing else. *)
Lemma getTmuxSessions_bare (s s' : St W) (l : list Session) :
  getTmuxSessions sys s = (Ret l, s') →
  Forall (λ x, x = mkSession (Name x) EmptyString EmptyString EmptyString) l.
Proof.
  unfold getTmuxSessions. rewrite bind_run, cmd_Output_run.
  destruct (sys_Output sys _ (world s)).1; intros [= <- _].
  - apply Forall_fmap, Forall_forall. done.
  - constructor.
Qed.

Lemma emits_cmd_Output (P : Event → Prop) (argv : list string) :
  P (EvOutput argv) → emits P (cmd_Output sys argv).
Proof. intros HP. apply emits_bind; [by apply emits_emit | intros; apply emits_call]. Qed.

Lemma emits_getTmuxSessions (P : Event → Prop) :
  (∀ argv, P (EvOutput argv)) → emits P (getTmuxSessions sys).
Proof.
  intros HP. apply emits_bind; [by apply emits_cmd_Output |].
  intros [? | ?]; apply emits_ret.
Qed.

Lemma emits_getZoxideResults (P : Event → Prop) :
  (∀ argv, P (EvOutput argv)) → emits P (getZoxideResults sys).
Proof.
  intros HP. apply emits_bind; [by apply emits_cmd_Output |].
  intros [? | ?]; apply emits_ret.
Qed.

Lemma emits_getGitWorktrees (P : Event → Prop) (root : string) :
  (∀ argv, P (EvOutput argv)) → emits P (getGitWorktrees sys root).
Proof.
  intros HP. apply emits_bind; [by apply emits_cmd_Output |].
  intros [? | ?]; apply emits_ret.
Qed.

End Adapters.

(** ** Building the catalog *)

Section Catalog.
Context {W : Type} (sys : Sys W).

Lemma expandWorktreeRoots_returns (config : list ConfigSession) (s : St W) :
  ∃ l s', expandWorktreeRoots sys config s = (Ret l, s').
Proof.
  revert s. induction config as [| c rest IH]; intros s; simpl.
  - by eexists _, _.
  - destruct (isWorktreeRoot c); [| apply IH].
    destruct (getGitWorktrees_run sys (cPath c) s) as (ws & Hws).
    rewrite (bind_Ret _ _ _ _ _ Hws).
    destruct (IH (mkSt (sys_Output sys (gitArgv (cPath c)) (world s)).2
                       (trace s ++ [EvOutput (gitArgv (cPath c))])))
      as (l & s' & Hl).
    rewrite (bind_Ret _ _ _ _ _ Hl). by eexists _, _.
Qed.

(** The configuration loop appends the flat sessions to the first slice
    and the expanded worktree roots to the second. *)
Lemma configLoop_expand (config : list ConfigSession)
    (flat worktree : list Session) (s s' : St W) (expanded : list Session) :
  expandWorktreeRoots sys config s = (Ret expanded, s') →
  configLoop sys flat worktree config s =
  (Ret (flat ++ flatSessions config, worktree ++ expanded), s').
Proof.
  revert flat worktree s expanded.
  induction config as [| c rest IH]; intros flat worktree s expanded; simpl.
  - intros [= <- <-]. by rewrite !app_nil_r.
  - unfold flatSessions. rewrite filter_cons.
    destruct (isWorktreeRoot c) eqn:Hc; simpl.
    + destruct (getGitWorktrees_run sys (cPath c) s) as (ws & Hws).
      rewrite !(bind_Ret _ _ _ _ _ Hws).
      rewrite bind_run.
      destruct (expandWorktreeRoots sys rest _) as [[more | h] s1] eqn:Hmore;
        [| done].
      intros [= <- <-].
      rewrite (IH _ _ _ _ Hmore). rewrite <- app_assoc.
      unfold worktreeSessionsOf.
      unfold isWorktreeRoot in Hc. destruct (cType c) as [t |]; [| done].
      apply bool_decide_eq_true in Hc as ->. done.
    + intros H. rewrite (IH _ _ _ _ H). by rewrite <- app_assoc.
Qed.

Lemma emits_expandHomePath (P : Event → Prop) (path : string) :
  emits P (expandHomePath sys path).
Proof.
  unfold expandHomePath. destruct (HasPrefix path "~"); [| apply emits_ret].
  apply emits_bind; [apply emits_call |]. intros [? | ?]; apply emits_ret.
Qed.

Lemma emits_expandConfig (P : Event → Prop) (done todo : list ConfigSession) :
  emits P (expandConfig sys done todo).
Proof.
  revert done. induction todo as [| c rest IH]; intros done; simpl.
  - apply emits_ret.
  - apply emits_bind; [apply emits_expandHomePath |].
    intros [? | ?]; [apply IH | apply emits_ret].
Qed.

Lemma emits_loadConfig : emits (λ e, isQueryOrNotice e = true) (loadConfig sys).
Proof.
  unfold loadConfig, getConfigPath, Println.
  apply emits_bind.
  { apply emits_bind; [apply emits_call |].
    intros [? | ?]; [apply emits_ret | apply emits_halt]. }
  intros filePath. apply emits_bind; [apply emits_call |].
  assert (emits (λ e, isQueryOrNotice e = true)
            (rd ← call (sys_ReadFile sys filePath);
             match rd with
             | Err e => mret (Err e)
             | Ok data =>
                 match yaml_Unmarshal sys data with
                 | Err e => mret (Err e)
                 | Ok config => expandConfig sys [] config
                 end
             end)) as Hread.
  { apply emits_bind; [apply emits_call |].
    intros [data | ?]; [| apply emits_ret].
    destruct (yaml_Unmarshal sys data); [apply emits_expandConfig | apply emits_ret]. }
  intros [| | ?]; try exact Hread.
  apply emits_bind; [by apply emits_emit | intros; apply emits_ret].
Qed.

Lemma emits_configLoop (P : Event → Prop) (config : list ConfigSession)
    (flat worktree : list Session) :
  (∀ argv, P (EvOutput argv)) → emits P (configLoop sys flat worktree config).
Proof.
  intros HP. revert flat worktree.
  induction config as [| c rest IH]; intros flat worktree; simpl.
  - apply emits_ret.
  - destruct (isWorktreeRoot c); [| apply IH].
    apply emits_bind; [by apply emits_getGitWorktrees |]. intros; apply IH.
Qed.

(** Building the catalog starts listing queries and nothing else; apart
    from them only the notice about a missing configuration file is
    printed. *)
Lemma emits_getSessions : emits (λ e, isQueryOrNotice e = true) (getSessions sys).
Proof.
  unfold getSessions. apply emits_bind; [apply emits_loadConfig |].
  intros [config | ?]; [| apply emits_ret].
  apply emits_bind; [by apply emits_getTmuxSessions |]. intros tm.
  apply emits_bind; [by apply emits_getZoxideResults |]. intros zo.
  apply emits_bind; [by apply emits_configLoop |].
  intros [? ?]. apply emits_ret.
Qed.

(** [getSessions] in terms of its four sources. *)
Lemma getSessions_run (s s1 s2 s3 s4 : St W) (config : list ConfigSession)
    (tmux zoxide worktree : list Session) :
  loadConfig sys s = (Ret (Ok config), s1) →
  getTmuxSessions sys s1 = (Ret tmux, s2) →
  getZoxideResults sys s2 = (Ret zoxide, s3) →
  expandWorktreeRoots sys config s3 = (Ret worktree, s4) →
  getSessions sys s =
  (Ret (Ok (mergeSessions tmux (flatSessions config) worktree zoxide)), s4).
Proof.
  intros H1 H2 H3 H4. unfold getSessions.
  rewrite (bind_Ret _ _ _ _ _ H1), (bind_Ret _ _ _ _ _ H2),
    (bind_Ret _ _ _ _ _ H3).
  rewrite (bind_Ret _ _ _ _ _ (configLoop_expand _ [] [] _ _ _ H4)).
  reflexivity.
Qed.

(** Once the configuration is loaded nothing can make [getSessions] fail. *)
Lemma getSessions_after_config (s s1 : St W) (config : list ConfigSession) :
  loadConfig sys s = (Ret (Ok config), s1) →
  ∃ tmux zoxide worktree s2 s3 s4,
    getTmuxSessions sys s1 = (Ret tmux, s2) ∧
    getZoxideResults sys s2 = (Ret zoxide, s3) ∧
    expandWorktreeRoots sys config s3 = (Ret worktree, s4) ∧
    getSessions sys s =
    (Ret (Ok (mergeSessions tmux (flatSessions config) worktree zoxide)), s4).
Proof.
  intros H1.
  destruct (getTmuxSessions_run sys s1) as (tm & H2).
  destruct (getZoxideResults_run sys
              (mkSt (sys_Output sys tmuxArgv (world s1)).2
                    (trace s1 ++ [EvOutput tmuxArgv]))) as (zo & H3).
  destruct (expandWorktreeRoots_returns config
              (mkSt (sys_Output sys zoxideArgv
                       (sys_Output sys tmuxArgv (world s1)).2).2
                    ((trace s1 ++ [EvOutput tmuxArgv]) ++ [EvOutput zoxideArgv])))
    as (wt & s4 & H4).
  simpl in H3.
  exists tm, zo, wt. do 3 eexists. repeat split; try eassumption.
  eapply getSessions_run; eassumption.
Qed.

(** Whatever [getSessions] returns is a catalog of the specification's
    shape. *)
Lemma getSessions_catalog (s s' : St W) (sessions : list Session) :
  getSessions sys s = (Ret (Ok sessions), s') →
  ∃ l, sessions = dedupeByName (normalize <$> l).
Proof.
  unfold getSessions. rewrite bind_run.
  destruct (loadConfig sys s) as [[[config | e] | h] s1] eqn:H1; try done.
  destruct (getSessions_after_config _ _ _ H1)
    as (tm & zo & wt & s2 & s3 & s4 & _ & _ & _ & H).
  unfold getSessions in H. rewrite (bind_Ret _ _ _ _ _ H1) in H.
  rewrite H. intros [= <- _].
  rewrite mergeSessions_catalogOf. by eexists.
Qed.

End Catalog.

(** ** Properties of the catalog *)

(** C1. [getSessions] concatenates the live multiplexer sessions, the flat
    configuration sessions (named after their path), the worktree-expanded
    configuration sessions and the frequency-index sessions in this order,
    replaces every '.' of every name by '_', and keeps of the sessions that
    share a normalised name the first one in that order. *)
Theorem getSessions_builds_catalog {W : Type} (sys : Sys W)
    (s s1 s2 s3 s4 : St W) (config : list ConfigSession)
    (tmux zoxide worktree : list Session) :
  loadConfig sys s = (Ret (Ok config), s1) →
  getTmuxSessions sys s1 = (Ret tmux, s2) →
  getZoxideResults sys s2 = (Ret zoxide, s3) →
  expandWorktreeRoots sys config s3 = (Ret worktree, s4) →
  getSessions sys s =
  (Ret (Ok (catalogOf tmux (flatSessions config) worktree zoxide)), s4).
Proof.
  intros H1 H2 H3 H4. rewrite <- mergeSessions_catalogOf.
  eapply getSessions_run; eassumption.
Qed.

Lemma getSessions_builds_catalog_witness :
  getSessions (Fixture.sys Fixture.busy) Fixture.start =
  (Ret (Ok (catalogOf
              [mkSession "work" EmptyString EmptyString EmptyString;
               mkSession "a_b" EmptyString EmptyString EmptyString]
              (flatSessions
                 [Fixture.plain "/src/a.b";
                  mkConfigSession (Some "worktreeroot") "/repo" "dev";
                  mkConfigSession None "work" "dev"])
              [mkSession "/repo" "/repo" "worktreeroot" "dev";
               mkSession "/repo/wt.1" "/repo/wt.1" "worktreeroot" "dev"]
              [mkSession "/src/a_b" "/src/a_b" EmptyString EmptyString;
               mkSession "/tmp/x.y.z" "/tmp/x.y.z" EmptyString EmptyString])),
   mkSt tt [EvOutput tmuxArgv; EvOutput zoxideArgv; EvOutput (gitArgv "/repo")]).
Proof.
  apply (getSessions_builds_catalog (Fixture.sys Fixture.busy) Fixture.start
           (mkSt tt [])
           (mkSt tt [EvOutput tmuxArgv])
           (mkSt tt [EvOutput tmuxArgv; EvOutput zoxideArgv]));
    vm_compute; reflexivity.
Defined.

(** The catalog's entries under a name that a live session normalises to:
    one entry, bare. *)
Lemma catalogOf_tmux_first (tmux others : list Session) (t : Session) :
  Forall (λ x, x = mkSession (Name x) EmptyString EmptyString EmptyString) tmux →
  t ∈ tmux →
  filter (λ e, Name e = normalizeName (Name t))
         (dedupeByName (normalize <$> (tmux ++ others)))
  = [mkSession (normalizeName (Name t)) EmptyString EmptyString EmptyString].
Proof.
  intros Hbare Ht. rewrite dedupeByName_filter_name, fmap_app, filter_app.
  assert (Forall (λ e, e = mkSession (normalizeName (Name t))
                           EmptyString EmptyString EmptyString)
            (filter (λ e, Name e = normalizeName (Name t)) (normalize <$> tmux)))
    as Hall.
  { apply Forall_forall. intros e He.
    apply list_elem_of_filter in He as [En He].
    apply list_elem_of_fmap in He as (x & -> & Hx).
    rewrite Forall_forall in Hbare. specialize (Hbare x Hx).
    simpl in En. unfold normalize. rewrite En.
    rewrite Hbare. reflexivity. }
  assert (normalize t ∈ filter (λ e, Name e = normalizeName (Name t))
                          (normalize <$> tmux)) as Hin.
  { apply list_elem_of_filter. split; [done |].
    apply list_elem_of_fmap. eauto. }
  destruct (filter _ (normalize <$> tmux)) as [| e l]; [by apply elem_of_nil in Hin |].
  apply Forall_cons in Hall as [-> _]. reflexivity.
Qed.

(** C2. When a live multiplexer session and a configuration session have
    the same normalised name, the catalog has one entry under that name and
    it is the multiplexer session's: name only, no path, no type, no
    template profile. *)
Theorem getSessions_live_session_wins {W : Type} (sys : Sys W)
    (s s1 s2 s3 s4 : St W) (config : list ConfigSession)
    (tmux zoxide worktree : list Session) (t c : Session) :
  loadConfig sys s = (Ret (Ok config), s1) →
  getTmuxSessions sys s1 = (Ret tmux, s2) →
  getZoxideResults sys s2 = (Ret zoxide, s3) →
  expandWorktreeRoots sys config s3 = (Ret worktree, s4) →
  t ∈ tmux →
  c ∈ flatSessions config ++ worktree →
  normalizeName (Name t) = normalizeName (Name c) →
  ∃ sessions,
    getSessions sys s = (Ret (Ok sessions), s4) ∧
    filter (λ e, Name e = normalizeName (Name c)) sessions = [normalize t] ∧
    normalize t =
      mkSession (normalizeName (Name t)) EmptyString EmptyString EmptyString ∧
    Path (normalize t) = EmptyString.
Proof.
  intros H1 H2 H3 H4 Ht _ En.
  pose proof (getTmuxSessions_bare sys _ _ _ H2) as Hbare.
  assert (t = mkSession (Name t) EmptyString EmptyString EmptyString) as Et.
  { rewrite Forall_forall in Hbare. by apply Hbare. }
  assert (normalize t =
          mkSession (normalizeName (Name t)) EmptyString EmptyString EmptyString)
    as Ent.
  { unfold normalize. rewrite Et. reflexivity. }
  eexists. split; [eapply getSessions_run; eassumption |].
  split; [| split; [exact Ent | by rewrite Ent]].
  rewrite mergeSessions_catalogOf, <- En, Ent. unfold catalogOf.
  by apply catalogOf_tmux_first.
Qed.

Lemma getSessions_live_session_wins_witness :
  ∃ sessions,
    getSessions (Fixture.sys Fixture.busy) Fixture.start =
      (Ret (Ok sessions),
       mkSt tt [EvOutput tmuxArgv; EvOutput zoxideArgv; EvOutput (gitArgv "/repo")]) ∧
    filter (λ e, Name e = normalizeName "work") sessions =
      [normalize (mkSession "work" EmptyString EmptyString EmptyString)] ∧
    normalize (mkSession "work" EmptyString EmptyString EmptyString) =
      mkSession (normalizeName "work") EmptyString EmptyString EmptyString ∧
    Path (normalize (mkSession "work" EmptyString EmptyString EmptyString))
      = EmptyString.
Proof.
  apply (getSessions_live_session_wins (Fixture.sys Fixture.busy) Fixture.start
           (mkSt tt [])
           (mkSt tt [EvOutput tmuxArgv])
           (mkSt tt [EvOutput tmuxArgv; EvOutput zoxideArgv])
           (mkSt tt [EvOutput tmuxArgv; EvOutput zoxideArgv; EvOutput (gitArgv "/repo")])
           [Fixture.plain "/src/a.b";
            mkConfigSession (Some "worktreeroot") "/repo" "dev";
            mkConfigSession None "work" "dev"]
           [mkSession "work" EmptyString EmptyString EmptyString;
            mkSession "a_b" EmptyString EmptyString EmptyString]
           [mkSession "/src/a_b" "/src/a_b" EmptyString EmptyString;
            mkSession "/tmp/x.y.z" "/tmp/x.y.z" EmptyString EmptyString]
           [mkSession "/repo" "/repo" "worktreeroot" "dev";
            mkSession "/repo/wt.1" "/repo/wt.1" "worktreeroot" "dev"]
           (mkSession "work" EmptyString EmptyString EmptyString)
           (mkSession "work" "work" EmptyString "dev"));
    try (vm_compute; reflexivity).
  - apply (bool_decide_unpack _). vm_compute. reflexivity.
  - apply (bool_decide_unpack _). vm_compute. reflexivity.
Defined.

(** C3. The name a.b.c is normalised to a_b_c, so a session with that name,
    from whichever source, is in the catalog as a_b_c; and when the sources
    produce the names a.b and a_b, the catalog has exactly one entry named
    a_b: the first, in precedence order, of the sessions that normalise to
    it. *)
Theorem mergeSessions_normalizes_then_dedupes
    (tmux flat worktree zoxide : list Session) :
  normalizeName "a.b.c" = "a_b_c" ∧
  (∀ x, x ∈ tmux ++ flat ++ worktree ++ zoxide → Name x = "a.b.c" →
        "a_b_c" ∈ Name <$> mergeSessions tmux flat worktree zoxide ∧
        "a.b.c" ∉ Name <$> mergeSessions tmux flat worktree zoxide) ∧
  (∀ pre first mid second post,
     tmux ++ flat ++ worktree ++ zoxide = pre ++ first :: mid ++ second :: post →
     (Name first = "a.b" ∧ Name second = "a_b" ∨
      Name first = "a_b" ∧ Name second = "a.b") →
     Forall (λ p, normalizeName (Name p) ≠ "a_b") pre →
     filter (λ e, Name e = "a_b") (mergeSessions tmux flat worktree zoxide)
     = [normalize first]).
Proof.
  rewrite mergeSessions_catalogOf. unfold catalogOf.
  split; [reflexivity |]. split.
  - intros x Hx Ex. split.
    + apply dedupeByName_names. rewrite <- list_fmap_compose.
      apply list_elem_of_fmap. exists x. split; [| done].
      simpl. by rewrite Ex.
    + intros H. apply (proj1 (dedupeByName_names _ _)) in H.
      apply list_elem_of_fmap in H as (y' & Ey & Hy').
      apply list_elem_of_fmap in Hy' as (y & -> & _). simpl in Ey.
      pose proof (normalizeName_no_dot (Name y)) as Hd.
      rewrite <- Ey in Hd. done.
  - intros pre first mid second post -> Hnames Hpre.
    assert (Name (normalize first) = "a_b") as E.
    { simpl. destruct Hnames as [[-> _] | [-> _]]; reflexivity. }
    rewrite fmap_app, fmap_cons.
    rewrite (list_filter_iff _ (λ e, Name e = Name (normalize first)))
      by (intros e; by rewrite E).
    apply dedupeByName_first.
    intros H. rewrite <- list_fmap_compose in H.
    apply list_elem_of_fmap in H as (p & Ep & Hp).
    rewrite Forall_forall in Hpre. apply (Hpre p Hp).
    simpl in Ep. rewrite <- Ep. exact E.
Qed.

Lemma mergeSessions_normalizes_then_dedupes_witness :
  filter (λ e, Name e = "a_b")
    (mergeSessions [mkSession "work" EmptyString EmptyString EmptyString]
       [mkSession "a.b" "a.b" EmptyString "dev"] []
       [mkSession "a_b" "a_b" EmptyString EmptyString])
  = [normalize (mkSession "a.b" "a.b" EmptyString "dev")].
Proof.
  apply (proj2 (proj2 (mergeSessions_normalizes_then_dedupes
                         [mkSession "work" EmptyString EmptyString EmptyString]
                         [mkSession "a.b" "a.b" EmptyString "dev"] []
                         [mkSession "a_b" "a_b" EmptyString EmptyString]))
           [mkSession "work" EmptyString EmptyString EmptyString]
           (mkSession "a.b" "a.b" EmptyString "dev") []
           (mkSession "a_b" "a_b" EmptyString EmptyString) []).
  - reflexivity.
  - left. split; reflexivity.
  - constructor; [| constructor].
    simpl. intros H. discriminate H.
Defined.

(** ** Connecting *)

Section Connect.
Context {W : Type} (sys : Sys W).

Lemma selectSession_None (sessions : list Session) (target : string) :
  selectSession sessions target = None ↔ target ∉ Name <$> sessions.
Proof.
  unfold selectSession. induction sessions as [| x l IH]; simpl.
  - split; [intros _; apply not_elem_of_nil | done].
  - rewrite not_elem_of_cons. case_bool_decide as E.
    + split; [done | intros [H _]; congruence].
    + rewrite IH. split; [intros H; split; [congruence | done] | tauto].
Qed.

Lemma selectSession_Some (sessions : list Session) (target : string) (sel : Session) :
  selectSession sessions target = Some sel → Name sel = target ∧ sel ∈ sessions.
Proof.
  unfold selectSession. induction sessions as [| x l IH]; simpl; [done |].
  case_bool_decide as E.
  - intros [= <-]. split; [done | left].
  - intros H. destruct (IH H). split; [done | by right].
Qed.

Lemma connect_not_found (s s1 : St W) (sessions : list Session)
    (target : string) (rest : list string) :
  getSessions sys s = (Ret (Ok sessions), s1) →
  target ∉ Name <$> sessions →
  connectSession_RunE sys (target :: rest) s =
  (Ret (Some ("session " +:+ target +:+ " not found")), s1).
Proof.
  intros H1 H2. apply selectSession_None in H2.
  unfold connectSession_RunE. rewrite (bind_Ret _ _ _ _ _ H1), H2. reflexivity.
Qed.

Lemma connect_selected (s s1 s2 : St W) (sessions tmux : list Session)
    (target : string) (rest : list string) (sel : Session) :
  getSessions sys s = (Ret (Ok sessions), s1) →
  selectSession sessions target = Some sel →
  getTmuxSessions sys s1 = (Ret tmux, s2) →
  connectSession_RunE sys (target :: rest) s =
  attachOrSwitch sys (sessionExistsIn tmux (Name sel)) sel target s2.
Proof.
  intros H1 H2 H3. unfold connectSession_RunE.
  rewrite (bind_Ret _ _ _ _ _ H1), H2, (bind_Ret _ _ _ _ _ H3). reflexivity.
Qed.

(** An error returned by [RunE] ends the process with status 1, after
    cobra's report and [main]'s own line on standard output. *)
Lemma main_connect_failed (s s' : St W) (target e : string) :
  connectSession_RunE sys [target] s = (Ret (Some e), s') →
  main sys (InvConnect [target]) s =
  (Stop (Exit 1),
   mkSt (world s')
        (trace s' ++ [EvCobraError e; EvStdout (e +:+ String newline EmptyString)])).
Proof.
  intros H. unfold main, Execute.
  replace (MaximumNArgs 1 [target]) with (@None string) by reflexivity.
  rewrite !bind_run, H. simpl. rewrite bind_run. simpl.
  by rewrite <- app_assoc.
Qed.

Lemma switchToTmuxSession_run (name : string) (s : St W) :
  ∃ r, switchToTmuxSession sys name s =
       (Ret r, mkSt (sys_Run sys ["tmux"; "switch-client"; "-t"; name] (world s)).2
                    (trace s ++ [EvRun ["tmux"; "switch-client"; "-t"; name]])).
Proof.
  unfold switchToTmuxSession. rewrite bind_run, cmd_Run_run.
  destruct (sys_Run sys _ (world s)).1; eexists; reflexivity.
Qed.

(** With the session already there: one switch, or one attach, or (tmux
    not found on the PATH) nothing but a diagnostic. *)
Lemma attachOrSwitch_existing (sel : Session) (target : string) (s : St W) :
  ∃ r s' evs,
    attachOrSwitch sys true sel target s = (r, s') ∧
    trace s' = trace s ++ evs ∧
    Forall (λ e, isCreation e = false) evs ∧
    filter (λ e, mutating e = true) evs =
      if decide (sys_Getenv sys "TMUX" (world s) ≠ EmptyString)
      then [EvRun ["tmux"; "switch-client"; "-t"; Name sel]]
      else match sys_LookPath sys "tmux" (world s) with
           | (Ok tmuxPath, w) =>
               [EvExec tmuxPath ["tmux"; "attach-session"; "-t"; target]
                       (sys_Environ sys w)]
           | (Err _, _) => []
           end.
Proof.
  unfold attachOrSwitch, isInsideTmuxSession, ensureSession, ask.
  rewrite !bind_run. simpl.
  destruct (decide (sys_Getenv sys "TMUX" (world s) ≠ EmptyString)) as [Hin | Hout].
  - rewrite bool_decide_true by done.
    destruct (switchToTmuxSession_run (Name sel) s) as (r & Hr).
    eexists _, _, _. split; [rewrite bind_run; simpl; exact Hr |]. simpl.
    split; [reflexivity |]. split; [by repeat constructor | done].
  - rewrite bool_decide_false by done.
    unfold syscall_Exec, Fprintf_Stderr, call, emit, halt.
    cbv [mbind M_bind mret M_ret]. simpl.
    destruct (sys_LookPath sys "tmux" (world s)) as [[tmuxPath | e] w]; simpl.
    + destruct (sys_Exec sys tmuxPath _ _ w) as [[e |] w']; simpl.
      * eexists _, _, _. split; [reflexivity |]. simpl.
        rewrite <- app_assoc. split; [reflexivity |].
        split; [by repeat constructor | done].
      * eexists _, _, _. split; [reflexivity |]. simpl.
        split; [reflexivity |]. split; [by repeat constructor | done].
    + eexists _, _, _. split; [reflexivity |]. simpl.
      split; [reflexivity |]. split; [by repeat constructor | done].
Qed.

(** A failed creation is what [connect] returns; nothing runs after it. *)
Lemma attachOrSwitch_create_failed (sel : Session) (target e : string)
    (s s' : St W) :
  createTmuxSession sys sel s = (Ret (Some e), s') →
  attachOrSwitch sys false sel target s = (Ret (Some e), s').
Proof.
  intros H. unfold attachOrSwitch, isInsideTmuxSession, ensureSession.
  rewrite !bind_run. simpl.
  destruct (bool_decide _); rewrite bind_run, H; reflexivity.
Qed.

End Connect.

(** ** Properties of connect *)

Lemma query_not_mutating (e : Event) : isQueryOrNotice e = true → mutating e = false.
Proof. by destruct e. Qed.

(** C4. A target name that no session of the catalog carries makes connect
    fail: the process exits with status 1 after printing that the session
    was not found, and the run starts no mutating command (no creation, no
    switch, no attach). *)
Theorem connect_missing_name {W : Type} (sys : Sys W) (s s1 : St W)
    (sessions : list Session) (target : string) :
  getSessions sys s = (Ret (Ok sessions), s1) →
  target ∉ Name <$> sessions →
  ∃ r s' evs,
    main sys (InvConnect [target]) s = (r, s') ∧
    exitCode r = Some 1%Z ∧
    trace s' = trace s ++ evs ∧
    EvStdout (("session " +:+ target +:+ " not found") +:+ String newline EmptyString)
      ∈ evs ∧
    Forall (λ e, mutating e = false) evs.
Proof.
  intros H1 H2.
  pose proof (connect_not_found sys _ _ _ _ [] H1 H2) as Hc.
  apply main_connect_failed in Hc.
  destruct (emits_run _ _ _ _ _ (emits_getSessions sys) H1) as (evs & E & F).
  eexists _, _, _. split; [exact Hc |]. split; [reflexivity |]. simpl.
  split; [by rewrite E, <- app_assoc |].
  split.
  - apply elem_of_app. right. right. left.
  - apply Forall_app. split.
    + eapply Forall_impl; [exact F | apply query_not_mutating].
    + by repeat constructor.
Qed.

Lemma connect_missing_name_witness :
  ∃ r s' evs,
    main (Fixture.sys Fixture.busy) (InvConnect ["missing-name"]) Fixture.start
      = (r, s') ∧
    exitCode r = Some 1%Z ∧
    trace s' = trace Fixture.start ++ evs ∧
    EvStdout (("session " +:+ "missing-name" +:+ " not found")
                +:+ String newline EmptyString) ∈ evs ∧
    Forall (λ e, mutating e = false) evs.
Proof.
  apply (connect_missing_name (Fixture.sys Fixture.busy) Fixture.start
           Fixture.afterCatalog Fixture.busyCatalog "missing-name").
  - vm_compute. reflexivity.
  - apply (bool_decide_unpack _). vm_compute. reflexivity.
Defined.

(** C5. When the fresh query reports the selected session as running,
    connect starts no creation command: what it starts is one switch-client
    when TMUX is set, and otherwise one attach-session that replaces the
    process (nothing at all when tmux is not found on the PATH). *)
Theorem connect_existing_session {W : Type} (sys : Sys W) (s s1 s2 : St W)
    (sessions tmux : list Session) (target : string) (sel : Session) :
  getSessions sys s = (Ret (Ok sessions), s1) →
  selectSession sessions target = Some sel →
  getTmuxSessions sys s1 = (Ret tmux, s2) →
  sessionExistsIn tmux (Name sel) = true →
  ∃ r s' before evs,
    connectSession_RunE sys [target] s = (r, s') ∧
    trace s2 = trace s ++ before ∧
    Forall (λ e, mutating e = false) before ∧
    trace s' = trace s2 ++ evs ∧
    Forall (λ e, isCreation e = false) evs ∧
    filter (λ e, mutating e = true) evs =
      if decide (sys_Getenv sys "TMUX" (world s2) ≠ EmptyString)
      then [EvRun ["tmux"; "switch-client"; "-t"; target]]
      else match sys_LookPath sys "tmux" (world s2) with
           | (Ok tmuxPath, w) =>
               [EvExec tmuxPath ["tmux"; "attach-session"; "-t"; target]
                       (sys_Environ sys w)]
           | (Err _, _) => []
           end.
Proof.
  intros H1 H2 H3 H4.
  rewrite (connect_selected sys _ _ _ _ _ _ [] _ H1 H2 H3), H4.
  destruct (selectSession_Some _ _ _ H2) as [En _].
  destruct (attachOrSwitch_existing sys sel target s2) as (r & s' & evs & E & T & F & M).
  destruct (emits_run _ _ _ _ _ (emits_getSessions sys) H1) as (evs1 & E1 & F1).
  destruct (emits_run _ _ _ _ _
              (emits_getTmuxSessions sys (λ e, isQueryOrNotice e = true)
                 (λ _, eq_refl)) H3) as (evs2 & E2 & F2).
  exists r, s', (evs1 ++ evs2), evs.
  split; [exact E |]. split; [by rewrite E2, E1, app_assoc |].
  split.
  { apply Forall_app. split; (eapply Forall_impl; [eassumption | apply query_not_mutating]). }
  split; [exact T |]. split; [exact F |].
  rewrite M, En. reflexivity.
Qed.

Lemma connect_existing_session_witness :
  ∃ r s' before evs,
    connectSession_RunE (Fixture.sys Fixture.busy) ["work"] Fixture.start = (r, s') ∧
    trace Fixture.afterRecheck = trace Fixture.start ++ before ∧
    Forall (λ e, mutating e = false) before ∧
    trace s' = trace Fixture.afterRecheck ++ evs ∧
    Forall (λ e, isCreation e = false) evs ∧
    filter (λ e, mutating e = true) evs =
      if decide (sys_Getenv (Fixture.sys Fixture.busy) "TMUX"
                   (world Fixture.afterRecheck) ≠ EmptyString)
      then [EvRun ["tmux"; "switch-client"; "-t"; "work"]]
      else match sys_LookPath (Fixture.sys Fixture.busy) "tmux"
                   (world Fixture.afterRecheck) with
           | (Ok tmuxPath, w) =>
               [EvExec tmuxPath ["tmux"; "attach-session"; "-t"; "work"]
                       (sys_Environ (Fixture.sys Fixture.busy) w)]
           | (Err _, _) => []
           end.
Proof.
  apply (connect_existing_session (Fixture.sys Fixture.busy) Fixture.start
           Fixture.afterCatalog Fixture.afterRecheck Fixture.busyCatalog
           Fixture.busyTmux "work"
           (mkSession "work" EmptyString EmptyString EmptyString));
    vm_compute; reflexivity.
Defined.

(** C6. Session creation. With a path and a template profile it runs the
    tmuxinator launcher with the session's name and profile, the prompt
    answered by [yes], and waits for it; with a path and no profile it runs
    tmux new-session, detached, with the name and the working directory;
    without a path it returns an error and runs nothing.  When either
    command fails the error is returned, and connect ends there with exit
    status 1. *)
Theorem createTmuxSession_contract {W : Type} (sys : Sys W)
    (session : Session) (s : St W) :
  (Path session = EmptyString →
   createTmuxSession sys session s =
   (Ret (Some "session path is missing, cannot create session"), s)) ∧
  (Path session ≠ EmptyString → Tmuxinator session ≠ EmptyString →
   createTmuxSession sys session s =
   (Ret match (sys_Run sys (tmuxinatorArgv session) (world s)).1 with
        | Some e => Some ("error starting tmuxinator session: " +:+ e)
        | None => None
        end,
    mkSt (sys_Run sys (tmuxinatorArgv session) (world s)).2
         (trace s ++ [EvRun (tmuxinatorArgv session)]))) ∧
  (Path session ≠ EmptyString → Tmuxinator session = EmptyString →
   createTmuxSession sys session s =
   (Ret match (sys_Run sys (newSessionArgv session) (world s)).1 with
        | Some e => Some ("error creating new tmux session: " +:+ e)
        | None => None
        end,
    mkSt (sys_Run sys (newSessionArgv session) (world s)).2
         (trace s ++ [EvRun (newSessionArgv session)]))) ∧
  (∀ (s0 s1 s3 : St W) (sessions tmux : list Session) (target e : string),
     getSessions sys s0 = (Ret (Ok sessions), s1) →
     selectSession sessions target = Some session →
     getTmuxSessions sys s1 = (Ret tmux, s) →
     sessionExistsIn tmux (Name session) = false →
     createTmuxSession sys session s = (Ret (Some e), s3) →
     main sys (InvConnect [target]) s0 =
     (Stop (Exit 1),
      mkSt (world s3)
           (trace s3 ++ [EvCobraError e;
                         EvStdout (e +:+ String newline EmptyString)]))).
Proof.
  unfold createTmuxSession. repeat split.
  - intros Hp. by rewrite decide_True.
  - intros Hp Ht. rewrite decide_False, decide_True by done.
    rewrite bind_run, cmd_Run_run. fold (tmuxinatorArgv session).
    by destruct (sys_Run sys _ (world s)).1.
  - intros Hp Ht. rewrite decide_False by done.
    rewrite decide_False by (intros H; by apply H).
    rewrite bind_run, cmd_Run_run. fold (newSessionArgv session).
    by destruct (sys_Run sys _ (world s)).1.
  - intros s0 s1 s3 sessions tmux target e H1 H2 H3 H4 H5.
    apply main_connect_failed.
    rewrite (connect_selected sys _ _ _ _ _ _ [] _ H1 H2 H3), H4.
    by apply attachOrSwitch_create_failed.
Qed.

Lemma createTmuxSession_contract_witness :
  createTmuxSession (Fixture.sys Fixture.busy)
    (mkSession "work" EmptyString EmptyString EmptyString) Fixture.start =
    (Ret (Some "session path is missing, cannot create session"), Fixture.start) ∧
  createTmuxSession (Fixture.sys Fixture.busy)
    (mkSession "work" "/w" EmptyString "dev") Fixture.start =
    (Ret None,
     mkSt tt [EvRun ["sh"; "-c";
                     "cd /w && yes | tmuxinator start -n work -p dev --no-attach"]]) ∧
  createTmuxSession (Fixture.sys Fixture.broken) Fixture.src_a_b Fixture.start =
    (Ret (Some "error creating new tmux session: exit status 1"),
     mkSt tt [EvRun ["tmux"; "new-session"; "-s"; "/src/a_b"; "-d"; "-c"; "/src/a.b"]]) ∧
  main (Fixture.sys Fixture.broken) (InvConnect ["/src/a_b"]) Fixture.start =
    (Stop (Exit 1),
     mkSt tt
       (trace Fixture.afterBrokenCreate ++
          [EvCobraError "error creating new tmux session: exit status 1";
           EvStdout ("error creating new tmux session: exit status 1"
                       +:+ String newline EmptyString)])).
Proof.
  split; [| split; [| split]].
  - apply (proj1 (createTmuxSession_contract (Fixture.sys Fixture.busy)
                    (mkSession "work" EmptyString EmptyString EmptyString)
                    Fixture.start)).
    reflexivity.
  - apply (proj1 (proj2 (createTmuxSession_contract (Fixture.sys Fixture.busy)
                           (mkSession "work" "/w" EmptyString "dev")
                           Fixture.start))); simpl; intros H; discriminate H.
  - apply (proj1 (proj2 (proj2 (createTmuxSession_contract
                                  (Fixture.sys Fixture.broken) Fixture.src_a_b
                                  Fixture.start)))); simpl;
      [intros H; discriminate H | reflexivity].
  - apply (proj2 (proj2 (proj2 (createTmuxSession_contract
                                  (Fixture.sys Fixture.broken) Fixture.src_a_b
                                  Fixture.afterBrokenRecheck)))
             Fixture.start Fixture.afterBrokenCatalog Fixture.afterBrokenCreate
             Fixture.brokenCatalog [] "/src/a_b"
             "error creating new tmux session: exit status 1");
      vm_compute; reflexivity.
Defined.

(** C9. The names of a catalog returned by [getSessions] are pairwise
    distinct and none contains a '.'; so connect with a target that
    contains a '.' finds no session: it returns the not-found error and the
    process exits with status 1. *)
Theorem catalog_names_distinct_dotless {W : Type} (sys : Sys W) (s s' : St W)
    (sessions : list Session) :
  getSessions sys s = (Ret (Ok sessions), s') →
  NoDup (Name <$> sessions) ∧
  Forall (λ x, containsByte dot (Name x) = false) sessions ∧
  ∀ target, containsByte dot target = true →
    connectSession_RunE sys [target] s =
      (Ret (Some ("session " +:+ target +:+ " not found")), s') ∧
    ∃ st, main sys (InvConnect [target]) s = (Stop (Exit 1), st).
Proof.
  intros H. destruct (getSessions_catalog sys _ _ _ H) as (l & E).
  assert (Forall (λ x, containsByte dot (Name x) = false) sessions) as Hdot.
  { rewrite E. apply Forall_forall. intros x Hx.
    apply dedupeByName_subseteq in Hx.
    apply list_elem_of_fmap in Hx as (y & -> & _).
    apply normalizeName_no_dot. }
  split; [rewrite E; apply dedupeByName_NoDup |].
  split; [exact Hdot |].
  intros target Ht.
  assert (target ∉ Name <$> sessions) as Hout.
  { intros Hin. apply list_elem_of_fmap in Hin as (x & -> & Hx).
    rewrite Forall_forall in Hdot. rewrite (Hdot x Hx) in Ht. done. }
  pose proof (connect_not_found sys _ _ _ _ [] H Hout) as Hc.
  split; [exact Hc |]. eexists. by apply main_connect_failed.
Qed.

Lemma catalog_names_distinct_dotless_witness :
  NoDup (Name <$> Fixture.busyCatalog) ∧
  Forall (λ x, containsByte dot (Name x) = false) Fixture.busyCatalog ∧
  ∀ target, containsByte dot target = true →
    connectSession_RunE (Fixture.sys Fixture.busy) [target] Fixture.start =
      (Ret (Some ("session " +:+ target +:+ " not found")), Fixture.afterCatalog) ∧
    ∃ st, main (Fixture.sys Fixture.busy) (InvConnect [target]) Fixture.start
          = (Stop (Exit 1), st).
Proof.
  apply (catalog_names_distinct_dotless (Fixture.sys Fixture.busy) Fixture.start
           Fixture.afterCatalog Fixture.busyCatalog).
  vm_compute. reflexivity.
Defined.

(** C10. connect without an argument passes the argument check, returns no
    error and leaves the state as it found it: no catalog is built and no
    command is started; the process ends with status 0. *)
Theorem connect_without_argument {W : Type} (sys : Sys W) (s : St W) :
  MaximumNArgs 1 [] = None ∧
  connectSession_RunE sys [] s = (Ret None, s) ∧
  main sys (InvConnect []) s = (Ret tt, s) ∧
  exitCode (main sys (InvConnect []) s).1 = Some 0%Z.
Proof. repeat split. Qed.

(** ** Failing tools *)

Section Degrade.
Context {W : Type} (sys : Sys W).

Lemma toolFails_run (argv : list string) (w : W) :
  toolFails sys argv w →
  ∃ e, sys_Output sys argv w = (Err e, (sys_Output sys argv w).2).
Proof.
  intros [e He]. exists e.
  destruct (sys_Output sys argv w) as [r w']. simpl in He. by subst.
Qed.

Lemma expandWorktreeRoots_all_failed (config : list ConfigSession) (s s' : St W)
    (worktree : list Session) :
  (∀ root w, toolFails sys (gitArgv root) w) →
  expandWorktreeRoots sys config s = (Ret worktree, s') →
  worktree = [].
Proof.
  intros Hfail. revert s s' worktree.
  induction config as [| c rest IH]; intros s s' worktree; simpl.
  - by intros [= <- _].
  - destruct (isWorktreeRoot c); [| apply IH].
    destruct (toolFails_run _ _ (Hfail (cPath c) (world s))) as (e & He).
    rewrite (bind_Ret _ _ _ _ _ (getGitWorktrees_failed sys _ _ _ _ He)).
    rewrite bind_run.
    destruct (expandWorktreeRoots sys rest _) as [[more | h] s1] eqn:Hmore;
      [| done].
    intros [= <- _]. by rewrite (IH _ _ _ Hmore).
Qed.

Lemma mapM_Println_run (sessions : list Session) (s : St W) :
  ∃ units,
    mapM (λ session, Println (W:=W) (Name session)) sessions s =
    (Ret units, mkSt (world s) (trace s ++ (listedLine <$> sessions))).
Proof.
  revert s. induction sessions as [| x l IH]; intros s; simpl.
  - exists []. rewrite app_nil_r. by destruct s.
  - rewrite bind_run. simpl.
    destruct (IH (mkSt (world s) (trace s ++ [listedLine x]))) as (units & Hu).
    unfold listedLine in Hu at 1.
    rewrite bind_run, Hu. simpl. rewrite <- app_assoc. by eexists.
Qed.

(** [list] prints the catalog it is given, one name a line, and succeeds. *)
Lemma main_list (args : list string) (s s' : St W) (sessions : list Session) :
  getSessions sys s = (Ret (Ok sessions), s') →
  main sys (InvList args) s =
  (Ret tt, mkSt (world s') (trace s' ++ (listedLine <$> sessions))).
Proof.
  intros H. unfold main, Execute, listSessions_RunE.
  destruct (mapM_Println_run sessions s') as (units & Hu).
  rewrite !bind_run, H. cbn beta iota.
  rewrite bind_run, Hu. reflexivity.
Qed.

End Degrade.

(** C7. A lister whose tool fails returns the empty list, and the catalog
    is still built from the other sources: once the configuration is
    loaded, [getSessions] returns the catalog of what the listers returned
    (nothing for one whose tool failed), and list prints it and succeeds. *)
Theorem failing_listers_empty_sources {W : Type} (sys : Sys W) (s : St W) :
  (toolFails sys tmuxArgv (world s) → (getTmuxSessions sys s).1 = Ret []) ∧
  (toolFails sys zoxideArgv (world s) → (getZoxideResults sys s).1 = Ret []) ∧
  (∀ root, toolFails sys (gitArgv root) (world s) →
           (getGitWorktrees sys root s).1 = Ret []) ∧
  (∀ (config : list ConfigSession) (s1 : St W) (args : list string),
     loadConfig sys s = (Ret (Ok config), s1) →
     ∃ tmux zoxide worktree s2 s3 s4,
       getTmuxSessions sys s1 = (Ret tmux, s2) ∧
       getZoxideResults sys s2 = (Ret zoxide, s3) ∧
       expandWorktreeRoots sys config s3 = (Ret worktree, s4) ∧
       (toolFails sys tmuxArgv (world s1) → tmux = []) ∧
       (toolFails sys zoxideArgv (world s2) → zoxide = []) ∧
       ((∀ root w, toolFails sys (gitArgv root) w) → worktree = []) ∧
       getSessions sys s =
         (Ret (Ok (catalogOf tmux (flatSessions config) worktree zoxide)), s4) ∧
       main sys (InvList args) s =
         (Ret tt,
          mkSt (world s4)
               (trace s4 ++
                  (listedLine <$> catalogOf tmux (flatSessions config) worktree zoxide)))).
Proof.
  split; [| split; [| split]].
  - intros (e & He)%toolFails_run.
    by rewrite (getTmuxSessions_failed sys _ _ _ He).
  - intros (e & He)%toolFails_run.
    by rewrite (getZoxideResults_failed sys _ _ _ He).
  - intros root (e & He)%toolFails_run.
    by rewrite (getGitWorktrees_failed sys _ _ _ _ He).
  - intros config s1 args H1.
    destruct (getSessions_after_config sys _ _ _ H1)
      as (tm & zo & wt & s2 & s3 & s4 & H2 & H3 & H4 & H).
    rewrite mergeSessions_catalogOf in H.
    exists tm, zo, wt, s2, s3, s4.
    split; [exact H2 |]. split; [exact H3 |]. split; [exact H4 |].
    split.
    { intros (e & He)%toolFails_run.
      rewrite (getTmuxSessions_failed sys _ _ _ He) in H2. congruence. }
    split.
    { intros (e & He)%toolFails_run.
      rewrite (getZoxideResults_failed sys _ _ _ He) in H3. congruence. }
    split.
    { intros Hfail. eapply expandWorktreeRoots_all_failed; eassumption. }
    split; [exact H |]. by apply main_list.
Qed.

Lemma failing_listers_empty_sources_witness :
  (getTmuxSessions (Fixture.sys Fixture.broken) Fixture.start).1 = Ret [] ∧
  (getZoxideResults (Fixture.sys Fixture.broken) Fixture.start).1 = Ret [] ∧
  (getGitWorktrees (Fixture.sys Fixture.broken) "/repo" Fixture.start).1 = Ret [] ∧
  ∃ tmux zoxide worktree s2 s3 s4,
    getTmuxSessions (Fixture.sys Fixture.broken) Fixture.start = (Ret tmux, s2) ∧
    getZoxideResults (Fixture.sys Fixture.broken) s2 = (Ret zoxide, s3) ∧
    expandWorktreeRoots (Fixture.sys Fixture.broken)
      (match Fixture.config Fixture.broken with Ok c => c | Err _ => [] end) s3
      = (Ret worktree, s4) ∧
    (toolFails (Fixture.sys Fixture.broken) tmuxArgv (world Fixture.start) → tmux = []) ∧
    (toolFails (Fixture.sys Fixture.broken) zoxideArgv (world s2) → zoxide = []) ∧
    ((∀ root w, toolFails (Fixture.sys Fixture.broken) (gitArgv root) w) →
     worktree = []) ∧
    getSessions (Fixture.sys Fixture.broken) Fixture.start =
      (Ret (Ok (catalogOf tmux
                  (flatSessions
                     (match Fixture.config Fixture.broken with
                      | Ok c => c
                      | Err _ => []
                      end))
                  worktree zoxide)), s4) ∧
    main (Fixture.sys Fixture.broken) (InvList []) Fixture.start =
      (Ret tt,
       mkSt (world s4)
            (trace s4 ++
               (listedLine <$>
                  catalogOf tmux
                    (flatSessions
                       (match Fixture.config Fixture.broken with
                        | Ok c => c
                        | Err _ => []
                        end))
                    worktree zoxide))).
Proof.
  pose proof (failing_listers_empty_sources (Fixture.sys Fixture.broken)
                Fixture.start) as (H1 & H2 & H3 & H4).
  split; [apply H1; by eexists |].
  split; [apply H2; by eexists |].
  split; [apply H3; by eexists |].
  apply (H4 _ Fixture.start []). vm_compute. reflexivity.
Defined.

(** C8, as stated, fails on the silent machine.
    All three listing tools of the silent machine fail, list succeeds with
    an empty catalog, and the whole run leaves nothing for the user to
    read: no diagnostic is emitted for any of the failures. *)
Lemma listing_failure_goes_unreported :
  toolFails (Fixture.sys Fixture.silent) tmuxArgv tt ∧
  toolFails (Fixture.sys Fixture.silent) zoxideArgv tt ∧
  toolFails (Fixture.sys Fixture.silent) (gitArgv "/repo") tt ∧
  main (Fixture.sys Fixture.silent) (InvList []) Fixture.start =
    (Ret tt,
     mkSt tt [EvOutput tmuxArgv; EvOutput zoxideArgv; EvOutput (gitArgv "/repo")]) ∧
  ¬ ∃ e, e ∈ trace (main (Fixture.sys Fixture.silent) (InvList []) Fixture.start).2 ∧
         isDiagnostic e = true.
Proof.
  split; [by eexists |]. split; [by eexists |]. split; [by eexists |].
  split; [vm_compute; reflexivity |].
  intros (e & He & Hd).
  assert (trace (main (Fixture.sys Fixture.silent) (InvList []) Fixture.start).2
          = [EvOutput tmuxArgv; EvOutput zoxideArgv; EvOutput (gitArgv "/repo")])
    as E by (vm_compute; reflexivity).
  rewrite E in He.
  repeat (apply elem_of_cons in He as [-> | He]; [discriminate Hd |]).
  by apply elem_of_nil in He.
Qed.

(** C8 (amended). A lister whose tool fails returns the empty list and
    adds nothing to the trace but its query: the error is dropped without a
    diagnostic.  Over the whole catalog construction the only thing printed
    is the notice that the configuration file is missing. *)
Theorem failing_listers_are_silent {W : Type} (sys : Sys W) (s : St W) :
  (toolFails sys tmuxArgv (world s) →
   getTmuxSessions sys s =
   (Ret [], mkSt (sys_Output sys tmuxArgv (world s)).2
                 (trace s ++ [EvOutput tmuxArgv]))) ∧
  (toolFails sys zoxideArgv (world s) →
   getZoxideResults sys s =
   (Ret [], mkSt (sys_Output sys zoxideArgv (world s)).2
                 (trace s ++ [EvOutput zoxideArgv]))) ∧
  (∀ root, toolFails sys (gitArgv root) (world s) →
   getGitWorktrees sys root s =
   (Ret [], mkSt (sys_Output sys (gitArgv root) (world s)).2
                 (trace s ++ [EvOutput (gitArgv root)]))) ∧
  (∀ r s', getSessions sys s = (r, s') →
           ∃ evs, trace s' = trace s ++ evs ∧
                  Forall (λ e, isQueryOrNotice e = true) evs).
Proof.
  split; [| split; [| split]].
  - intros (e & He)%toolFails_run. by apply getTmuxSessions_failed with e.
  - intros (e & He)%toolFails_run. by apply getZoxideResults_failed with e.
  - intros root (e & He)%toolFails_run. by apply getGitWorktrees_failed with e.
  - intros r s' H. exact (emits_run _ _ _ _ _ (emits_getSessions sys) H).
Qed.

Lemma failing_listers_are_silent_witness :
  getTmuxSessions (Fixture.sys Fixture.silent) Fixture.start =
    (Ret [], mkSt tt [EvOutput tmuxArgv]) ∧
  getZoxideResults (Fixture.sys Fixture.silent) Fixture.start =
    (Ret [], mkSt tt [EvOutput zoxideArgv]) ∧
  getGitWorktrees (Fixture.sys Fixture.silent) "/repo" Fixture.start =
    (Ret [], mkSt tt [EvOutput (gitArgv "/repo")]) ∧
  ∃ evs,
    [EvOutput tmuxArgv; EvOutput zoxideArgv; EvOutput (gitArgv "/repo")]
      = trace Fixture.start ++ evs ∧
    Forall (λ e, isQueryOrNotice e = true) evs.
Proof.
  pose proof (failing_listers_are_silent (Fixture.sys Fixture.silent)
                Fixture.start) as (H1 & H2 & H3 & H4).
  split; [apply H1; by eexists |].
  split; [apply H2; by eexists |].
  split; [apply H3; by eexists |].
  apply (H4 (Ret (Ok []))
            (mkSt tt [EvOutput tmuxArgv; EvOutput zoxideArgv;
                      EvOutput (gitArgv "/repo")])).
  vm_compute. reflexivity.
Defined.

(** ** The configuration file *)

Section Config.
Context {W : Type} (sys : Sys W).

Lemma call_eq {A} (f : W → A * W) (s : St W) (a : A) (w : W) :
  f (world s) = (a, w) → call f s = (Ret a, mkSt w (trace s)).
Proof. intros H. unfold call. by rewrite H. Qed.

Lemma getConfigPath_run (s : St W) (homeDir : string) (w : W) :
  sys_UserHomeDir sys (world s) = (Ok homeDir, w) →
  getConfigPath sys s =
  (Ret (filepath_Join sys homeDir configPath), mkSt w (trace s)).
Proof.
  intros H. unfold getConfigPath, call. rewrite bind_run, H. reflexivity.
Qed.

Lemma expandHomePath_run (path : string) (s : St W) :
  ∃ r s', expandHomePath sys path s = (Ret r, s') ∧ trace s' = trace s ∧
    match r with
    | Ok path' =>
        if HasPrefix path "~"
        then ∃ homeDir, path' = filepath_Join sys homeDir (sliceFrom 1 path)
        else path' = path ∧ s' = s
    | Err _ => HasPrefix path "~" = true
    end.
Proof.
  unfold expandHomePath. destruct (HasPrefix path "~").
  - unfold call. rewrite bind_run.
    destruct (sys_UserCurrent sys (world s)) as [[homeDir | e] w]; simpl;
      eexists _, _; (split; [reflexivity |]); split; eauto.
  - eexists _, _. split; [reflexivity |]. done.
Qed.

Lemma expandConfig_run (todo done : list ConfigSession) (s : St W) :
  ∃ r s', expandConfig sys done todo s = (Ret r, s') ∧ trace s' = trace s ∧
    match r with
    | Ok out => ∃ out', out = done ++ out' ∧ Forall2 (expandedFrom sys) todo out'
    | Err _ => ∃ c, c ∈ todo ∧ HasPrefix (cPath c) "~" = true
    end.
Proof.
  revert done s. induction todo as [| c rest IH]; intros done s; simpl.
  - eexists _, _. split; [reflexivity |]. split; [done |].
    exists []. rewrite app_nil_r. split; [done | constructor].
  - destruct (expandHomePath_run (cPath c) s) as (r & s1 & E & T & Hr).
    rewrite (bind_Ret _ _ _ _ _ E). destruct r as [path' | e].
    + destruct (IH (done ++ [mkConfigSession (cType c) path' (cTmuxinator c)]) s1)
        as (r & s2 & E2 & T2 & Hr2).
      exists r, s2. split; [exact E2 |]. split; [congruence |].
      destruct r as [out | e].
      * destruct Hr2 as (out' & -> & F).
        exists (mkConfigSession (cType c) path' (cTmuxinator c) :: out').
        split; [by rewrite <- app_assoc |].
        constructor; [| exact F].
        unfold expandedFrom. simpl. split; [done |]. split; [done |].
        destruct (HasPrefix (cPath c) "~"); [exact Hr | by destruct Hr].
      * destruct Hr2 as (c' & Hc' & Hp). exists c'. split; [by right | done].
    + eexists _, _. split; [reflexivity |]. split; [done |].
      exists c. split; [left | done].
Qed.

(** The configuration file is there: [loadConfig] is the reading, the
    parsing and the expansion. *)
Lemma loadConfig_present (s : St W) (homeDir : string) (w1 w2 : W) (st : StatResult) :
  sys_UserHomeDir sys (world s) = (Ok homeDir, w1) →
  sys_Stat sys (filepath_Join sys homeDir configPath) w1 = (st, w2) →
  st ≠ StatNotExist →
  loadConfig sys s =
  match sys_ReadFile sys (filepath_Join sys homeDir configPath) w2 with
  | (Err e, w3) => (Ret (Err e), mkSt w3 (trace s))
  | (Ok data, w3) =>
      match yaml_Unmarshal sys data with
      | Err e => (Ret (Err e), mkSt w3 (trace s))
      | Ok config => expandConfig sys [] config (mkSt w3 (trace s))
      end
  end.
Proof.
  intros H1 H2 H3. unfold loadConfig.
  rewrite (bind_Ret _ _ _ _ _ (getConfigPath_run _ _ _ H1)).
  rewrite (bind_Ret _ _ _ _ _ (call_eq _ (mkSt w1 (trace s)) _ _ H2)).
  assert (∀ s0 : St W,
            (rd ← call (sys_ReadFile sys (filepath_Join sys homeDir configPath));
             match rd with
             | Err e => mret (Err e)
             | Ok data =>
                 match yaml_Unmarshal sys data with
                 | Err e => mret (Err e)
                 | Ok config => expandConfig sys [] config
                 end
             end) s0 =
            match sys_ReadFile sys (filepath_Join sys homeDir configPath) (world s0) with
            | (Err e, w3) => (Ret (Err e), mkSt w3 (trace s0))
            | (Ok data, w3) =>
                match yaml_Unmarshal sys data with
                | Err e => (Ret (Err e), mkSt w3 (trace s0))
                | Ok config => expandConfig sys [] config (mkSt w3 (trace s0))
                end
            end) as Hread.
  { intros s0. unfold call. rewrite bind_run.
    destruct (sys_ReadFile sys _ (world s0)) as [[data | e] w3]; simpl; [| done].
    by destruct (yaml_Unmarshal sys data). }
  destruct st; [apply (Hread (mkSt w2 (trace s))) | done
                | apply (Hread (mkSt w2 (trace s)))].
Qed.

Lemma loadConfig_missing (s : St W) (homeDir : string) (w1 w2 : W) :
  sys_UserHomeDir sys (world s) = (Ok homeDir, w1) →
  sys_Stat sys (filepath_Join sys homeDir configPath) w1 = (StatNotExist, w2) →
  loadConfig sys s = (Ret (Ok []), mkSt w2 (trace s ++ [notice])).
Proof.
  intros H1 H2. unfold loadConfig.
  rewrite (bind_Ret _ _ _ _ _ (getConfigPath_run _ _ _ H1)).
  rewrite (bind_Ret _ _ _ _ _ (call_eq _ (mkSt w1 (trace s)) _ _ H2)). reflexivity.
Qed.

Lemma loadConfig_panics (s : St W) (e : string) (w : W) :
  sys_UserHomeDir sys (world s) = (Err e, w) →
  loadConfig sys s = (Stop (Panic e), mkSt w (trace s)).
Proof.
  intros H. unfold loadConfig, getConfigPath, call. rewrite !bind_run, H.
  reflexivity.
Qed.

(** [loadConfig] prints nothing but the notice, and that only when it
    returns the empty configuration. *)
Lemma loadConfig_trace (s s1 : St W) (r : Res (result (list ConfigSession))) :
  loadConfig sys s = (r, s1) →
  trace s1 = trace s ∨ (r = Ret (Ok []) ∧ trace s1 = trace s ++ [notice]).
Proof.
  intros H.
  destruct (sys_UserHomeDir sys (world s)) as [[homeDir | e] w] eqn:H1.
  - destruct (sys_Stat sys (filepath_Join sys homeDir configPath) w)
      as [st w1] eqn:H2.
    assert (st = StatNotExist ∨ st ≠ StatNotExist) as [-> | Hst]
      by (destruct st; eauto).
    + rewrite (loadConfig_missing _ _ _ _ H1 H2) in H.
      injection H as <- <-. by right.
    + rewrite (loadConfig_present _ _ _ _ _ H1 H2 Hst) in H. left. revert H.
      destruct (sys_ReadFile sys _ w1) as [[data | e] w2];
        [| by intros [= _ <-]].
      destruct (yaml_Unmarshal sys data) as [config | e];
        [| by intros [= _ <-]].
      destruct (expandConfig_run config [] (mkSt w2 (trace s)))
        as (r' & s' & E & T & _).
      rewrite E. by intros [= _ <-].
  - rewrite (loadConfig_panics _ _ _ H1) in H. injection H as <- <-. by left.
Qed.

Lemma loadConfig_error_trace (s s1 : St W) (e : string) :
  loadConfig sys s = (Ret (Err e), s1) → trace s1 = trace s.
Proof. intros H. by destruct (loadConfig_trace _ _ _ H) as [T | [[=] _]]. Qed.

Lemma getSessions_config_error (s s1 : St W) (e : string) :
  loadConfig sys s = (Ret (Err e), s1) → getSessions sys s = (Ret (Err e), s1).
Proof. intros H. unfold getSessions. by rewrite (bind_Ret _ _ _ _ _ H). Qed.

Lemma main_list_failed (args : list string) (s s' : St W) (e : string) :
  getSessions sys s = (Ret (Err e), s') →
  main sys (InvList args) s =
  (Stop (Exit 1),
   mkSt (world s')
        (trace s' ++ [EvCobraError e; EvStdout (e +:+ String newline EmptyString)])).
Proof.
  intros H. unfold main, Execute, listSessions_RunE.
  rewrite !bind_run, H. simpl. rewrite bind_run. simpl.
  by rewrite <- app_assoc.
Qed.

Lemma connect_config_error (target : string) (rest : list string) (s s' : St W)
    (e : string) :
  getSessions sys s = (Ret (Err e), s') →
  connectSession_RunE sys (target :: rest) s = (Ret (Some e), s').
Proof.
  intros H. unfold connectSession_RunE. by rewrite (bind_Ret _ _ _ _ _ H).
Qed.

End Config.


(** X1. Without a configuration file [loadConfig] returns the empty
    configuration, says so on standard output and does not try to read the
    file; the catalog is then the live sessions followed by the zoxide
    directories, and git is not run. *)
Theorem missing_config_file_is_empty_config {W : Type} (sys : Sys W) (s : St W)
    (homeDir : string) (w1 w2 : W) :
  sys_UserHomeDir sys (world s) = (Ok homeDir, w1) →
  sys_Stat sys (filepath_Join sys homeDir configPath) w1 = (StatNotExist, w2) →
  loadConfig sys s = (Ret (Ok []), mkSt w2 (trace s ++ [notice])) ∧
  ∀ tmux zoxide s2 s3,
    getTmuxSessions sys (mkSt w2 (trace s ++ [notice])) = (Ret tmux, s2) →
    getZoxideResults sys s2 = (Ret zoxide, s3) →
    getSessions sys s =
      (Ret (Ok (dedupeByName (normalize <$> tmux ++ zoxide))), s3) ∧
    trace s3 = trace s ++ [notice; EvOutput tmuxArgv; EvOutput zoxideArgv].
Proof.
  intros H1 H2. pose proof (loadConfig_missing sys _ _ _ _ H1 H2) as Hl.
  split; [exact Hl |]. intros tmux zoxide s2 s3 Ht Hz. split.
  - rewrite (getSessions_run sys _ _ _ _ s3 [] tmux zoxide [] Hl Ht Hz eq_refl).
    rewrite mergeSessions_catalogOf. unfold catalogOf, flatSessions. simpl.
    reflexivity.
  - destruct (getTmuxSessions_run sys (mkSt w2 (trace s ++ [notice]))) as (l & El).
    rewrite El in Ht. injection Ht as _ <-.
    destruct (getZoxideResults_run sys
                (mkSt (sys_Output sys tmuxArgv w2).2
                      ((trace s ++ [notice]) ++ [EvOutput tmuxArgv]))) as (l' & El').
    simpl in Hz. rewrite El' in Hz. injection Hz as _ <-.
    simpl. by rewrite <- !app_assoc.
Qed.

Lemma missing_config_file_is_empty_config_witness :
  loadConfig (Host.sys Host.noConfigFile) Fixture.start =
    (Ret (Ok []), mkSt tt [notice]) ∧
  getSessions (Host.sys Host.noConfigFile) Fixture.start =
    (Ret (Ok (dedupeByName
                (normalize <$>
                   Fixture.busyTmux ++
                   [mkSession "/src/a_b" "/src/a_b" EmptyString EmptyString;
                    mkSession "/tmp/x.y.z" "/tmp/x.y.z" EmptyString EmptyString]))),
     mkSt tt [notice; EvOutput tmuxArgv; EvOutput zoxideArgv]).
Proof.
  destruct (missing_config_file_is_empty_config (Host.sys Host.noConfigFile)
              Fixture.start "/home/u" tt tt eq_refl eq_refl) as [H1 H2].
  split; [exact H1 |].
  exact (proj1 (H2 Fixture.busyTmux
                   [mkSession "/src/a_b" "/src/a_b" EmptyString EmptyString;
                    mkSession "/tmp/x.y.z" "/tmp/x.y.z" EmptyString EmptyString]
                   (mkSt tt [notice; EvOutput tmuxArgv])
                   (mkSt tt [notice; EvOutput tmuxArgv; EvOutput zoxideArgv])
                   eq_refl eq_refl)).
Defined.

(** X2. A configuration file that cannot be read or parsed is fatal for
    list and for connect: the error of the read or of the parser is the one
    reported, the process exits with status 1, and no tool has been run by
    then. *)
Theorem unusable_config_is_fatal {W : Type} (sys : Sys W) (s : St W)
    (homeDir : string) (w1 w2 w3 : W) (st : StatResult) (e : string)
    (args : list string) (target : string) :
  sys_UserHomeDir sys (world s) = (Ok homeDir, w1) →
  sys_Stat sys (filepath_Join sys homeDir configPath) w1 = (st, w2) →
  st ≠ StatNotExist →
  (sys_ReadFile sys (filepath_Join sys homeDir configPath) w2 = (Err e, w3) ∨
   ∃ data,
     sys_ReadFile sys (filepath_Join sys homeDir configPath) w2 = (Ok data, w3) ∧
     yaml_Unmarshal sys data = Err e) →
  getSessions sys s = (Ret (Err e), mkSt w3 (trace s)) ∧
  main sys (InvList args) s =
    (Stop (Exit 1),
     mkSt w3 (trace s ++ [EvCobraError e;
                          EvStdout (e +:+ String newline EmptyString)])) ∧
  main sys (InvConnect [target]) s =
    (Stop (Exit 1),
     mkSt w3 (trace s ++ [EvCobraError e;
                          EvStdout (e +:+ String newline EmptyString)])).
Proof.
  intros H1 H2 H3 H4.
  assert (loadConfig sys s = (Ret (Err e), mkSt w3 (trace s))) as Hl.
  { rewrite (loadConfig_present sys _ _ _ _ _ H1 H2 H3).
    destruct H4 as [-> | (data & -> & ->)]; reflexivity. }
  pose proof (getSessions_config_error sys _ _ _ Hl) as Hg.
  split; [exact Hg |]. split.
  - exact (main_list_failed sys args _ _ _ Hg).
  - exact (main_connect_failed sys _ _ _ _ (connect_config_error sys target [] _ _ _ Hg)).
Qed.

Lemma unusable_config_is_fatal_witness :
  getSessions (Host.sys Host.badYaml) Fixture.start =
    (Ret (Err "yaml: line 1: did not find expected key"), mkSt tt []) ∧
  main (Host.sys Host.badYaml) (InvList []) Fixture.start =
    (Stop (Exit 1),
     mkSt tt [EvCobraError "yaml: line 1: did not find expected key";
              EvStdout ("yaml: line 1: did not find expected key"
                          +:+ String newline EmptyString)]) ∧
  main (Host.sys Host.badYaml) (InvConnect ["work"]) Fixture.start =
    (Stop (Exit 1),
     mkSt tt [EvCobraError "yaml: line 1: did not find expected key";
              EvStdout ("yaml: line 1: did not find expected key"
                          +:+ String newline EmptyString)]).
Proof.
  apply (unusable_config_is_fatal (Host.sys Host.badYaml) Fixture.start
           "/home/u" tt tt tt StatOk "yaml: line 1: did not find expected key"
           [] "work").
  - reflexivity.
  - reflexivity.
  - intros H. discriminate H.
  - right. exists "path: [". split; reflexivity.
Defined.

(** X3. When the home directory cannot be determined the program panics
    while it looks for its configuration file: list and connect with a
    target end there, before any tool is run and without an error
    message of their own. *)
Theorem unknown_home_directory_panics {W : Type} (sys : Sys W) (s : St W)
    (e : string) (w : W) (args : list string) (target : string) :
  sys_UserHomeDir sys (world s) = (Err e, w) →
  main sys (InvList args) s = (Stop (Panic e), mkSt w (trace s)) ∧
  main sys (InvConnect [target]) s = (Stop (Panic e), mkSt w (trace s)).
Proof.
  intros H. pose proof (loadConfig_panics sys _ _ _ H) as Hl.
  assert (getSessions sys s = (Stop (Panic e), mkSt w (trace s))) as Hg.
  { unfold getSessions. by rewrite (bind_Stop _ _ _ _ _ Hl). }
  split.
  - unfold main, Execute, listSessions_RunE.
    by rewrite (bind_Stop _ _ _ (mkSt w (trace s)) (Panic e))
      by (rewrite (bind_Stop _ _ _ (mkSt w (trace s)) (Panic e));
          [done | by rewrite (bind_Stop _ _ _ _ _ Hg)]).
  - unfold main, Execute.
    replace (MaximumNArgs 1 [target]) with (@None string) by reflexivity.
    by rewrite (bind_Stop _ _ _ (mkSt w (trace s)) (Panic e))
      by (rewrite (bind_Stop _ _ _ (mkSt w (trace s)) (Panic e));
          [done | unfold connectSession_RunE; by rewrite (bind_Stop _ _ _ _ _ Hg)]).
Qed.

Lemma unknown_home_directory_panics_witness :
  main (Host.sys Host.homeless) (InvList []) Fixture.start =
    (Stop (Panic "$HOME is not defined"), mkSt tt []) ∧
  main (Host.sys Host.homeless) (InvConnect ["work"]) Fixture.start =
    (Stop (Panic "$HOME is not defined"), mkSt tt []).
Proof.
  apply (unknown_home_directory_panics (Host.sys Host.homeless) Fixture.start
           "$HOME is not defined" tt [] "work").
  reflexivity.
Defined.



Example tilde_config_loaded :
  loadConfig (Host.sys Host.tilde) Fixture.start =
  (Ret (Ok [mkConfigSession None "/home/u/src" "dev";
            mkConfigSession (Some "worktreeroot") "/repo" EmptyString;
            mkConfigSession (Some "other") "/home/u" EmptyString]),
   mkSt tt []).
Proof. vm_compute. reflexivity. Qed.

(** ** Parsing the output of the tools *)

Lemma Split_line (line rest : string) :
  containsByte newline line = false →
  Split (line +:+ String newline rest) newline = line :: Split rest newline.
Proof.
  induction line as [| c l IH]; simpl; intros H.
  - reflexivity.
  - apply orb_false_iff in H as [Hc Hl]. rewrite Hc, (IH Hl). reflexivity.
Qed.

Lemma Split_unlines (lines : list string) :
  Forall (λ line, containsByte newline line = false) lines →
  Split (unlines lines) newline = lines ++ [EmptyString].
Proof.
  induction 1 as [| line rest Hl _ IH]; simpl; [done |].
  by rewrite Split_line, IH.
Qed.

Lemma HasPrefix_worktree (path : string) :
  HasPrefix ("worktree " +:+ path) "worktree " = true.
Proof. unfold HasPrefix. simpl. by destruct path. Qed.

Section Parsing.
Context {W : Type} (sys : Sys W).

Lemma trimmedLines_unlines (names : list string) :
  strings_TrimSpace sys EmptyString = EmptyString →
  Forall (cleanLine sys) names →
  trimmedLines sys (unlines names) = names.
Proof.
  intros Hempty Hnames. unfold trimmedLines.
  rewrite Split_unlines
    by (eapply Forall_impl; [exact Hnames | by intros ? (? & _)]).
  rewrite fmap_app, filter_app. simpl. rewrite Hempty.
  rewrite filter_cons_False by (intros H; by apply H).
  rewrite filter_nil, app_nil_r.
  induction Hnames as [| n rest (_ & Ht & Hne) _ IH]; [done |].
  rewrite fmap_cons, Ht, filter_cons_True by done. by rewrite IH.
Qed.

Lemma trimmedLines_nonempty (output : string) :
  Forall (λ name, name ≠ EmptyString) (trimmedLines sys output).
Proof.
  apply Forall_forall. intros name H.
  by apply list_elem_of_filter in H as [H _].
Qed.

Lemma worktree_lines (entries : list (string * list string)) :
  Forall (λ entry, Forall (λ line, HasPrefix line "worktree " = false) entry.2)
         entries →
  (λ line, TrimPrefix line "worktree ")
    <$> filter (λ line, HasPrefix line "worktree " = true)
               ((entries ≫= porcelainLines) ++ [EmptyString])
  = fst <$> entries.
Proof.
  induction 1 as [| [w attrs] rest Ha _ IH]; simpl; [done |].
  rewrite filter_cons_True by apply HasPrefix_worktree. rewrite fmap_cons.
  f_equal.
  - unfold TrimPrefix. rewrite HasPrefix_worktree. reflexivity.
  - rewrite <- !app_assoc, filter_app. simpl in Ha.
    rewrite (filter_none _ attrs)
      by (eapply Forall_impl; [exact Ha | intros l Hl; by rewrite Hl]).
    simpl. rewrite filter_cons_False by done. exact IH.
Qed.

End Parsing.

(** X5. The sessions that the multiplexer lister and the frequency-index
    lister return never have an empty name: blank lines of the tool's
    output are dropped.  A multiplexer session has a name and nothing
    else; a frequency-index session has its name as its path, so it can
    always be created. *)
Theorem listers_return_named_sessions {W : Type} (sys : Sys W) (s : St W) :
  (∃ l s', getTmuxSessions sys s = (Ret l, s') ∧
           Forall (λ x, Name x ≠ EmptyString ∧ Path x = EmptyString ∧
                        Type_ x = EmptyString ∧ Tmuxinator x = EmptyString) l) ∧
  (∃ l s', getZoxideResults sys s = (Ret l, s') ∧
           Forall (λ x, Name x ≠ EmptyString ∧ Path x = Name x ∧
                        Type_ x = EmptyString ∧ Tmuxinator x = EmptyString) l).
Proof.
  split.
  - unfold getTmuxSessions. rewrite bind_run, cmd_Output_run.
    destruct (sys_Output sys _ (world s)).1 as [output | e];
      eexists _, _; (split; [reflexivity |]); [| constructor].
    apply Forall_fmap. eapply Forall_impl; [apply trimmedLines_nonempty |].
    by intros name Hn.
  - unfold getZoxideResults. rewrite bind_run, cmd_Output_run.
    destruct (sys_Output sys _ (world s)).1 as [output | e];
      eexists _, _; (split; [reflexivity |]); [| constructor].
    apply Forall_fmap. eapply Forall_impl; [apply trimmedLines_nonempty |].
    by intros name Hn.
Qed.

(** X6. What tmux and zoxide print is read back faithfully: when the tool
    prints the given names, one a line, each followed by a newline, the
    lister returns exactly these names, in order; in particular empty
    output gives no session.  (The names are lines that
    [strings.TrimSpace] leaves alone, and it maps the empty string to
    itself.) *)
Theorem listers_read_back_printed_names {W : Type} (sys : Sys W) (s : St W)
    (names : list string) (w : W) :
  strings_TrimSpace sys EmptyString = EmptyString →
  Forall (cleanLine sys) names →
  (sys_Output sys tmuxArgv (world s) = (Ok (unlines names), w) →
   getTmuxSessions sys s =
   (Ret ((λ name, mkSession name EmptyString EmptyString EmptyString) <$> names),
    mkSt w (trace s ++ [EvOutput tmuxArgv]))) ∧
  (sys_Output sys zoxideArgv (world s) = (Ok (unlines names), w) →
   getZoxideResults sys s =
   (Ret ((λ name, mkSession name name EmptyString EmptyString) <$> names),
    mkSt w (trace s ++ [EvOutput zoxideArgv]))).
Proof.
  intros Hempty Hnames. split; intros H.
  - unfold getTmuxSessions. rewrite bind_run, cmd_Output_run.
    fold tmuxArgv. rewrite H. simpl. by rewrite trimmedLines_unlines.
  - unfold getZoxideResults. rewrite bind_run, cmd_Output_run.
    fold zoxideArgv. rewrite H. simpl. by rewrite trimmedLines_unlines.
Qed.

Lemma listers_read_back_printed_names_witness :
  getTmuxSessions (Fixture.sys Fixture.busy) Fixture.start =
    (Ret [mkSession "work" EmptyString EmptyString EmptyString;
          mkSession "a_b" EmptyString EmptyString EmptyString],
     mkSt tt [EvOutput tmuxArgv]) ∧
  getTmuxSessions (Host.sys Host.tilde) Fixture.start =
    (Ret [], mkSt tt [EvOutput tmuxArgv]) ∧
  getZoxideResults (Host.sys Host.tilde) Fixture.start =
    (Ret [], mkSt tt [EvOutput zoxideArgv]).
Proof.
  split; [| split].
  - apply (proj1 (listers_read_back_printed_names (Fixture.sys Fixture.busy)
                    Fixture.start ["work"; "a_b"] tt eq_refl
                    ltac:(repeat constructor; discriminate))).
    reflexivity.
  - apply (proj1 (listers_read_back_printed_names (Host.sys Host.tilde)
                    Fixture.start [] tt eq_refl ltac:(constructor))).
    reflexivity.
  - apply (proj2 (listers_read_back_printed_names (Host.sys Host.tilde)
                    Fixture.start [] tt eq_refl ltac:(constructor))).
    reflexivity.
Defined.

(** X7. The worktree lister reads back git's porcelain listing: from the
    records of the worktrees it returns the paths, one for each record and
    in order; the attribute lines, the empty lines between the records and
    the final newline give nothing. *)
Theorem getGitWorktrees_reads_porcelain {W : Type} (sys : Sys W) (s : St W)
    (root : string) (entries : list (string * list string)) (w : W) :
  Forall (λ entry,
            containsByte newline entry.1 = false ∧
            strings_TrimSpace sys entry.1 = entry.1 ∧
            Forall (λ line, containsByte newline line = false ∧
                            HasPrefix line "worktree " = false) entry.2)
         entries →
  sys_Output sys (gitArgv root) (world s) = (Ok (porcelain entries), w) →
  getGitWorktrees sys root s =
  (Ret (fst <$> entries), mkSt w (trace s ++ [EvOutput (gitArgv root)])).
Proof.
  intros Hentries H. unfold getGitWorktrees.
  rewrite bind_run, cmd_Output_run. fold (gitArgv root). rewrite H. simpl.
  unfold porcelain. rewrite Split_unlines.
  - rewrite (list_fmap_compose (λ line, TrimPrefix line "worktree ")
               (strings_TrimSpace sys)).
    rewrite worktree_lines.
    + assert (strings_TrimSpace sys <$> (fst <$> entries) = fst <$> entries) as ->;
        [| reflexivity].
      clear H. induction Hentries as [| e rest (_ & Ht & _) _ IH]; [done |].
      by rewrite !fmap_cons, Ht, IH.
    + eapply Forall_impl; [exact Hentries |]. intros e (_ & _ & Ha).
      eapply Forall_impl; [exact Ha | by intros l (_ & Hl)].
  - apply Forall_forall. intros line Hline.
    apply list_elem_of_bind in Hline as (e & Hline & He).
    rewrite Forall_forall in Hentries. destruct (Hentries e He) as (Hw & _ & Ha).
    unfold porcelainLines in Hline.
    apply elem_of_cons in Hline as [-> | Hline]; [exact Hw |].
    apply elem_of_app in Hline as [Hline | Hline].
    + rewrite Forall_forall in Ha. by destruct (Ha line Hline).
    + apply list_elem_of_singleton in Hline as ->. reflexivity.
Qed.

Lemma getGitWorktrees_reads_porcelain_witness :
  getGitWorktrees (Fixture.sys Host.porcelainWorld) "/repo" Fixture.start =
  (Ret ["/repo"; "/repo/wt.1"], mkSt tt [EvOutput (gitArgv "/repo")]).
Proof.
  apply (getGitWorktrees_reads_porcelain (Fixture.sys Host.porcelainWorld)
           Fixture.start "/repo"
           [("/repo", ["HEAD 1f2e3d"; "branch refs/heads/main"]);
            ("/repo/wt.1", ["HEAD 4c5b6a"; "detached"])] tt).
  - repeat constructor.
  - reflexivity.
Defined.

(** ** More on names and on the merge *)

Lemma normalizeName_fixed (name : string) :
  containsByte dot name = false → normalizeName name = name.
Proof.
  unfold normalizeName. induction name as [| c r IH]; [done |].
  simpl. destruct (Ascii.eqb c dot); simpl; [done |].
  intros H. by rewrite IH.
Qed.

Lemma normalize_idem (x : Session) : normalize (normalize x) = normalize x.
Proof.
  unfold normalize. simpl. f_equal.
  apply normalizeName_fixed, normalizeName_no_dot.
Qed.

Lemma fmap_normalize_fixed (l : list Session) :
  Forall (λ x, normalize x = x) l → normalize <$> l = l.
Proof.
  induction 1 as [| x r Hx _ IH]; [done |].
  by rewrite fmap_cons, Hx, IH.
Qed.

Lemma dedupeByName_sublist (l : list Session) : dedupeByName l `sublist_of` l.
Proof.
  induction l as [| s r IH]; simpl; [constructor |].
  apply sublist_skip. etrans; [apply sublist_filter | exact IH].
Qed.

Lemma dedupeByName_distinct (l : list Session) :
  NoDup (Name <$> l) → dedupeByName l = l.
Proof.
  induction l as [| s r IH]; simpl; [done |].
  intros [Hs Hr]%NoDup_cons. rewrite (IH Hr). f_equal.
  apply filter_all, Forall_forall. intros t Ht E. apply Hs.
  apply list_elem_of_fmap. exists t. done.
Qed.

Lemma dedupeByName_app (l1 l2 : list Session) :
  dedupeByName (l1 ++ l2) =
  dedupeByName l1 ++
    filter (λ e, Name e ∉ Name <$> dedupeByName l1) (dedupeByName l2).
Proof.
  induction l1 as [| s r IH]; simpl.
  - symmetry. apply filter_all, Forall_forall. intros e _. apply not_elem_of_nil.
  - f_equal. rewrite IH, filter_app. f_equal.
    rewrite list_filter_filter. apply list_filter_iff. intros e.
    rewrite not_elem_of_cons. split.
    + intros [Hne Hout]. split; [done |]. intros Hin. apply Hout.
      apply list_elem_of_fmap in Hin as (t & -> & Ht).
      apply list_elem_of_filter in Ht as [_ Ht].
      apply list_elem_of_fmap. eauto.
    + intros [Hne Hout]. split; [done |]. intros Hin. apply Hout.
      apply list_elem_of_fmap in Hin as (t & E & Ht).
      apply list_elem_of_fmap. exists t. split; [done |].
      apply list_elem_of_filter. split; [congruence | done].
Qed.

(** [getSessions] succeeded: the sources it merged. *)
Lemma getSessions_sources {W : Type} (sys : Sys W) (s s' : St W)
    (sessions : list Session) :
  getSessions sys s = (Ret (Ok sessions), s') →
  ∃ config tmux zoxide worktree s1 s2 s3,
    loadConfig sys s = (Ret (Ok config), s1) ∧
    getTmuxSessions sys s1 = (Ret tmux, s2) ∧
    getZoxideResults sys s2 = (Ret zoxide, s3) ∧
    expandWorktreeRoots sys config s3 = (Ret worktree, s') ∧
    sessions = mergeSessions tmux (flatSessions config) worktree zoxide.
Proof.
  intros H.
  destruct (loadConfig sys s) as [[[config | e] | h] s1] eqn:H1.
  - destruct (getSessions_after_config sys _ _ _ H1)
      as (tm & zo & wt & s2 & s3 & s4 & H2 & H3 & H4 & Hg).
    rewrite Hg in H. injection H as <- <-.
    by exists config, tm, zo, wt, s1, s2, s3.
  - unfold getSessions in H. by rewrite (bind_Ret _ _ _ _ _ H1) in H.
  - unfold getSessions in H. by rewrite (bind_Stop _ _ _ _ _ H1) in H.
Qed.

(** X8. The catalog keeps the order of its sources: it is the
    concatenation of the four groups with the names normalised and some
    entries left out, so it is never longer than the groups together, and
    an entry's path, type and template profile are those of the source
    session. *)
Theorem mergeSessions_keeps_order (tmux flat worktree zoxide : list Session) :
  mergeSessions tmux flat worktree zoxide
    `sublist_of` normalize <$> (tmux ++ flat ++ worktree ++ zoxide) ∧
  (length (mergeSessions tmux flat worktree zoxide)
     ≤ length tmux + length flat + length worktree + length zoxide)%nat.
Proof.
  rewrite mergeSessions_catalogOf. unfold catalogOf.
  pose proof (dedupeByName_sublist
                (normalize <$> (tmux ++ flat ++ worktree ++ zoxide))) as H.
  split; [exact H |].
  apply sublist_length in H.
  rewrite length_fmap, !length_app in H. lia.
Qed.

(** X9. No name is lost: the names of the catalog are exactly the
    normalised names of the source sessions, so the lookup that connect
    does succeeds exactly for the targets that some source session
    normalises to. *)
Theorem mergeSessions_names (tmux flat worktree zoxide : list Session)
    (target : string) :
  (target ∈ Name <$> mergeSessions tmux flat worktree zoxide ↔
   ∃ x, x ∈ tmux ++ flat ++ worktree ++ zoxide ∧ normalizeName (Name x) = target) ∧
  (is_Some (selectSession (mergeSessions tmux flat worktree zoxide) target) ↔
   ∃ x, x ∈ tmux ++ flat ++ worktree ++ zoxide ∧ normalizeName (Name x) = target).
Proof.
  assert (target ∈ Name <$> mergeSessions tmux flat worktree zoxide ↔
          ∃ x, x ∈ tmux ++ flat ++ worktree ++ zoxide
               ∧ normalizeName (Name x) = target) as Hn.
  { rewrite mergeSessions_catalogOf. unfold catalogOf.
    rewrite dedupeByName_names, <- list_fmap_compose, list_elem_of_fmap.
    split; intros (x & E & Hx); exists x; simpl in *; by split. }
  split; [exact Hn |]. rewrite <- Hn.
  destruct (selectSession _ target) as [sel |] eqn:E.
  - split; [intros _ | by eexists].
    apply selectSession_Some in E as [<- Hsel].
    apply list_elem_of_fmap. eauto.
  - apply selectSession_None in E. split; [by intros [? [=]] | done].
Qed.

(** X10. When the normalised names of the source sessions are pairwise
    distinct nothing is dropped: the catalog is the concatenation of the
    four groups with the names normalised. *)
Theorem mergeSessions_without_duplicates
    (tmux flat worktree zoxide : list Session) :
  NoDup ((λ x, normalizeName (Name x)) <$> (tmux ++ flat ++ worktree ++ zoxide)) →
  mergeSessions tmux flat worktree zoxide
  = normalize <$> (tmux ++ flat ++ worktree ++ zoxide).
Proof.
  intros H. rewrite mergeSessions_catalogOf. unfold catalogOf.
  apply dedupeByName_distinct. by rewrite <- list_fmap_compose.
Qed.

Lemma mergeSessions_without_duplicates_witness :
  mergeSessions [mkSession "work" EmptyString EmptyString EmptyString]
    [mkSession "/src/a.b" "/src/a.b" EmptyString "dev"] []
    [mkSession "/tmp" "/tmp" EmptyString EmptyString]
  = normalize <$>
      ([mkSession "work" EmptyString EmptyString EmptyString] ++
       [mkSession "/src/a.b" "/src/a.b" EmptyString "dev"] ++ [] ++
       [mkSession "/tmp" "/tmp" EmptyString EmptyString]).
Proof.
  apply mergeSessions_without_duplicates.
  apply (bool_decide_unpack _). vm_compute. reflexivity.
Defined.

(** X11. Merging is idempotent: a catalog fed back as the first group,
    with nothing else, comes out unchanged. *)
Theorem mergeSessions_idempotent (tmux flat worktree zoxide : list Session) :
  mergeSessions (mergeSessions tmux flat worktree zoxide) [] [] []
  = mergeSessions tmux flat worktree zoxide.
Proof.
  rewrite !mergeSessions_catalogOf. unfold catalogOf at 1. rewrite !app_nil_r.
  assert (normalize <$> catalogOf tmux flat worktree zoxide
          = catalogOf tmux flat worktree zoxide) as ->.
  { apply fmap_normalize_fixed, Forall_forall. intros x Hx.
    unfold catalogOf in Hx. apply dedupeByName_subseteq in Hx.
    apply list_elem_of_fmap in Hx as (y & -> & _). apply normalize_idem. }
  apply dedupeByName_distinct. unfold catalogOf. apply dedupeByName_NoDup.
Qed.

(** X12. A group never changes what the groups before it contribute: the
    catalog is the catalog of the live sessions followed by those entries
    of the other groups' catalog whose names are still free, and likewise
    the frequency-index group only appends to the catalog of the first
    three. *)
Theorem mergeSessions_appends (tmux flat worktree zoxide : list Session) :
  mergeSessions tmux flat worktree zoxide =
    mergeSessions tmux [] [] [] ++
    filter (λ e, Name e ∉ Name <$> mergeSessions tmux [] [] [])
           (mergeSessions [] flat worktree zoxide) ∧
  mergeSessions tmux flat worktree zoxide =
    mergeSessions tmux flat worktree [] ++
    filter (λ e, Name e ∉ Name <$> mergeSessions tmux flat worktree [])
           (mergeSessions [] [] [] zoxide).
Proof.
  rewrite !mergeSessions_catalogOf. unfold catalogOf. split.
  - rewrite !app_nil_r. simpl. rewrite fmap_app. apply dedupeByName_app.
  - rewrite !app_nil_r. simpl.
    rewrite !(assoc_L (++) tmux), !(assoc_L (++) (tmux ++ flat)).
    rewrite fmap_app. apply dedupeByName_app.
Qed.

(** X13. Normalising a name keeps its length, changes nothing in a name
    without a '.', changes every other name, and is idempotent. *)
Theorem normalizeName_properties (name : string) :
  String.length (normalizeName name) = String.length name ∧
  (normalizeName name = name ↔ containsByte dot name = false) ∧
  normalizeName (normalizeName name) = normalizeName name.
Proof.
  split; [| split].
  - unfold normalizeName. induction name as [| c r IH]; [done |].
    simpl. destruct (Ascii.eqb c dot); simpl; f_equal; exact IH.
  - split; [| apply normalizeName_fixed].
    intros E. rewrite <- E. apply normalizeName_no_dot.
  - apply normalizeName_fixed, normalizeName_no_dot.
Qed.

(** ** The shape of the sessions *)

Section Shapes.
Context {W : Type} (sys : Sys W).

Lemma getZoxideResults_paths (s s' : St W) (l : list Session) :
  getZoxideResults sys s = (Ret l, s') →
  Forall (λ x, Path x = Name x ∧ Type_ x = EmptyString) l.
Proof.
  unfold getZoxideResults. rewrite bind_run, cmd_Output_run.
  destruct (sys_Output sys _ (world s)).1; intros [= <- _].
  - apply Forall_fmap, Forall_forall. done.
  - constructor.
Qed.

Lemma isWorktreeRoot_type (c : ConfigSession) :
  isWorktreeRoot c = true ↔ cType c = Some "worktreeroot".
Proof.
  unfold isWorktreeRoot. destruct (cType c) as [t |]; [| done].
  rewrite bool_decide_eq_true. split; [by intros -> | by intros [= ->]].
Qed.

Lemma expandWorktreeRoots_shape (config : list ConfigSession) (s s' : St W)
    (worktree : list Session) :
  expandWorktreeRoots sys config s = (Ret worktree, s') →
  Forall (λ x, Name x = Path x ∧ Type_ x = "worktreeroot" ∧
               ∃ c, c ∈ config ∧ cType c = Some "worktreeroot" ∧
                    Tmuxinator x = cTmuxinator c) worktree ∧
  trace s' = trace s ++
    ((λ c, EvOutput (gitArgv (cPath c)))
       <$> filter (λ c, isWorktreeRoot c = true) config).
Proof.
  revert s s' worktree.
  induction config as [| c rest IH]; intros s s' worktree; simpl.
  - intros [= <- <-]. split; [constructor | by rewrite app_nil_r].
  - rewrite filter_cons. destruct (isWorktreeRoot c) eqn:Hc; simpl.
    + destruct (getGitWorktrees_run sys (cPath c) s) as (ws & Hws).
      rewrite (bind_Ret _ _ _ _ _ Hws), bind_run.
      destruct (expandWorktreeRoots sys rest _) as [[more | h] s1] eqn:Hmore;
        [| done].
      intros [= <- <-]. destruct (IH _ _ _ Hmore) as [F T]. split.
      * apply Forall_app. split.
        -- apply Forall_fmap, Forall_forall. intros w _. simpl.
           split; [done |]. split; [done |]. exists c.
           split; [left |]. split; [by apply isWorktreeRoot_type | done].
        -- eapply Forall_impl; [exact F |].
           intros x (? & ? & c' & ? & ? & ?). split; [done |]. split; [done |].
           exists c'. split; [by right | done].
      * rewrite T. simpl. by rewrite <- app_assoc.
    + intros H. destruct (IH _ _ _ H) as [F T]. split; [| exact T].
      eapply Forall_impl; [exact F |].
      intros x (? & ? & c' & ? & ? & ?). split; [done |]. split; [done |].
      exists c'. split; [by right | done].
Qed.

End Shapes.

(** X14. The configuration loop always completes.  Every entry whose
    type is not exactly worktreeroot (no type, or another one) becomes one
    session named after its path, with an empty type; git is run once for
    each worktree-root entry, in configuration order, on the entry's path;
    and every session that comes out of a worktree root has its name as
    its path, the type worktreeroot and the template profile of a
    worktree-root entry. *)
Theorem configLoop_sessions {W : Type} (sys : Sys W) (s : St W)
    (config : list ConfigSession) :
  ∃ worktree s',
    configLoop sys [] [] config s =
      (Ret ((λ c, mkSession (cPath c) (cPath c) EmptyString (cTmuxinator c))
              <$> filter (λ c, isWorktreeRoot c = false) config,
            worktree), s') ∧
    Forall (λ x, Name x = Path x ∧ Type_ x = "worktreeroot" ∧
                 ∃ c, c ∈ config ∧ cType c = Some "worktreeroot" ∧
                      Tmuxinator x = cTmuxinator c) worktree ∧
    trace s' = trace s ++
      ((λ c, EvOutput (gitArgv (cPath c)))
         <$> filter (λ c, isWorktreeRoot c = true) config).
Proof.
  destruct (expandWorktreeRoots_returns sys config s) as (wt & s' & H).
  exists wt, s'. split.
  - rewrite (configLoop_expand sys _ [] [] _ _ _ H). reflexivity.
  - exact (expandWorktreeRoots_shape sys _ _ _ _ H).
Qed.

(** X15. In a catalog returned by [getSessions] an entry either has no
    path (it is a live session) or is named after its path: its name is
    the path with the dots replaced.  Its type is empty or worktreeroot. *)
Theorem catalog_entries_named_after_path {W : Type} (sys : Sys W) (s s' : St W)
    (sessions : list Session) :
  getSessions sys s = (Ret (Ok sessions), s') →
  Forall (λ e, (Path e = EmptyString ∨ Name e = normalizeName (Path e)) ∧
               (Type_ e = EmptyString ∨ Type_ e = "worktreeroot")) sessions.
Proof.
  intros H.
  destruct (getSessions_sources sys _ _ _ H)
    as (config & tm & zo & wt & s1 & s2 & s3 & H1 & H2 & H3 & H4 & ->).
  rewrite mergeSessions_catalogOf. unfold catalogOf.
  apply Forall_forall. intros e He. apply dedupeByName_subseteq in He.
  apply list_elem_of_fmap in He as (x & -> & Hx). simpl.
  assert ((Path x = EmptyString ∨ Name x = Path x) ∧
          (Type_ x = EmptyString ∨ Type_ x = "worktreeroot")) as [[Hp | Hp] Ht];
    [| by split; [left |] | by split; [right; rewrite Hp |]].
  rewrite !elem_of_app in Hx. destruct Hx as [Hx | [Hx | [Hx | Hx]]].
  - pose proof (getTmuxSessions_bare sys _ _ _ H2) as Hb.
    rewrite Forall_forall in Hb. rewrite (Hb x Hx). simpl. by split; left.
  - unfold flatSessions in Hx. apply list_elem_of_fmap in Hx as (c & -> & _).
    simpl. by split; [right | left].
  - destruct (expandWorktreeRoots_shape sys _ _ _ _ H4) as [F _].
    rewrite Forall_forall in F. destruct (F x Hx) as (Hn & Hty & _).
    by split; right.
  - pose proof (getZoxideResults_paths sys _ _ _ H3) as Hz.
    rewrite Forall_forall in Hz. destruct (Hz x Hx) as [Hp Hty].
    by split; [right | left].
Qed.

Lemma catalog_entries_named_after_path_witness :
  Forall (λ e, (Path e = EmptyString ∨ Name e = normalizeName (Path e)) ∧
               (Type_ e = EmptyString ∨ Type_ e = "worktreeroot"))
         Fixture.busyCatalog.
Proof.
  apply (catalog_entries_named_after_path (Fixture.sys Fixture.busy)
           Fixture.start Fixture.afterCatalog).
  vm_compute. reflexivity.
Defined.

(** ** More on list and connect *)

Section Commands.
Context {W : Type} (sys : Sys W).

Lemma emits_weaken {A} (P Q : Event → Prop) (m : M W A) :
  (∀ e, P e → Q e) → emits P m → emits Q m.
Proof.
  intros HPQ Hm s. destruct (Hm s) as (evs & E & F).
  exists evs. split; [done |]. eapply Forall_impl; eauto.
Qed.

Lemma emits_mapM_Println (P : Event → Prop) (sessions : list Session) :
  (∀ text, P (EvStdout text)) →
  emits P (mapM (λ session, Println (W:=W) (Name session)) sessions).
Proof.
  intros HP. induction sessions as [| x l IH]; simpl.
  - apply emits_ret.
  - apply emits_bind; [by apply emits_emit |]. intros ?.
    apply emits_bind; [exact IH |]. intros; apply emits_ret.
Qed.

Lemma emits_main_list (args : list string) :
  emits (λ e, mutating e = false) (main sys (InvList args)).
Proof.
  unfold main, Execute, listSessions_RunE.
  apply emits_bind.
  - apply emits_bind.
    + apply emits_bind.
      * eapply emits_weaken; [apply query_not_mutating | apply emits_getSessions].
      * intros [sessions | e]; [| apply emits_ret].
        apply emits_bind; [by apply emits_mapM_Println |].
        intros; apply emits_ret.
    + intros [e |]; [| apply emits_ret].
      apply emits_bind; [by apply emits_emit |]. intros; apply emits_ret.
  - intros [e |]; [| apply emits_ret].
    apply emits_bind; [by apply emits_emit |]. intros; apply emits_halt.
Qed.

Lemma createTmuxSession_no_path (sel : Session) (s : St W) :
  Path sel = EmptyString →
  createTmuxSession sys sel s =
  (Ret (Some "session path is missing, cannot create session"), s).
Proof. intros H. unfold createTmuxSession. by rewrite decide_True. Qed.

Lemma createTmuxSession_ran (sel : Session) (s : St W) (w : W) :
  Path sel ≠ EmptyString →
  sys_Run sys (createArgv sel) (world s) = (None, w) →
  createTmuxSession sys sel s =
  (Ret None, mkSt w (trace s ++ [EvRun (createArgv sel)])).
Proof.
  intros Hp Hr. unfold createTmuxSession, createArgv in *.
  rewrite decide_False by done.
  destruct (decide (Tmuxinator sel ≠ EmptyString));
    rewrite bind_run, cmd_Run_run;
    [fold (tmuxinatorArgv sel) | fold (newSessionArgv sel)]; by rewrite Hr.
Qed.

Lemma switchToTmuxSession_eq (name : string) (s : St W) :
  switchToTmuxSession sys name s =
  match sys_Run sys (switchArgv name) (world s) with
  | (Some e, w) =>
      (Ret (Some ("error switching to tmux session: " +:+ e)),
       mkSt w (trace s ++ [EvRun (switchArgv name)]))
  | (None, w) => (Ret None, mkSt w (trace s ++ [EvRun (switchArgv name)]))
  end.
Proof.
  unfold switchToTmuxSession. rewrite bind_run, cmd_Run_run.
  fold (switchArgv name).
  by destruct (sys_Run sys (switchArgv name) (world s)) as [[e |] w].
Qed.

Lemma attachOrSwitch_ensured (sessionExists : bool) (sel : Session)
    (target : string) (s s3 : St W) :
  ensureSession sys sessionExists sel s = (Ret None, s3) →
  attachOrSwitch sys sessionExists sel target s =
  finish sys (bool_decide (sys_Getenv sys "TMUX" (world s) ≠ EmptyString))
         sel target s3.
Proof.
  intros H. unfold attachOrSwitch, isInsideTmuxSession, ask, finish.
  rewrite !bind_run. simpl.
  destruct (bool_decide (sys_Getenv sys "TMUX" (world s) ≠ EmptyString)).
  - by rewrite (bind_Ret _ _ _ _ _ H).
  - rewrite (bind_Ret _ _ _ _ _ H).
    unfold syscall_Exec, Fprintf_Stderr, call, emit, halt, attachArgv.
    cbv [mbind M_bind mret M_ret]. simpl.
    destruct (sys_LookPath sys "tmux" (world s3)) as [[tmuxPath | e] w]; simpl;
      [| done].
    destruct (sys_Exec sys tmuxPath _ _ w) as [[e |] w']; simpl; [| done].
    by rewrite <- app_assoc.
Qed.

End Commands.

(** X16. list only looks: whatever the tools, the configuration and the
    arguments are, and however the run ends, it starts no command through
    [Run] or [syscall.Exec], so it creates no session, switches no client
    and attaches nowhere. *)
Theorem list_starts_no_mutating_command {W : Type} (sys : Sys W)
    (args : list string) :
  emits (λ e, mutating e = false) (main sys (InvList args)).
Proof. apply emits_main_list. Qed.

(** X17. A session that only the multiplexer knew, and that is gone when
    connect asks the multiplexer again, cannot be created: it has no path.
    connect fails with the missing-path error and exit status 1, and no
    command has been started. *)
Theorem connect_vanished_session {W : Type} (sys : Sys W) (s s1 s2 : St W)
    (sessions tmux : list Session) (target : string) (sel : Session) :
  getSessions sys s = (Ret (Ok sessions), s1) →
  selectSession sessions target = Some sel →
  Path sel = EmptyString →
  getTmuxSessions sys s1 = (Ret tmux, s2) →
  sessionExistsIn tmux (Name sel) = false →
  main sys (InvConnect [target]) s =
    (Stop (Exit 1),
     mkSt (world s2)
          (trace s2 ++
             [EvCobraError "session path is missing, cannot create session";
              EvStdout ("session path is missing, cannot create session"
                          +:+ String newline EmptyString)])) ∧
  ∃ evs, trace s2 = trace s ++ evs ∧ Forall (λ e, mutating e = false) evs.
Proof.
  intros H1 H2 Hp H3 H4. split.
  - apply main_connect_failed.
    rewrite (connect_selected sys _ _ _ _ _ _ [] _ H1 H2 H3), H4.
    apply attachOrSwitch_create_failed. by apply createTmuxSession_no_path.
  - destruct (emits_run _ _ _ _ _ (emits_getSessions sys) H1) as (evs1 & E1 & F1).
    destruct (emits_run _ _ _ _ _
                (emits_getTmuxSessions sys (λ e, isQueryOrNotice e = true)
                   (λ _, eq_refl)) H3) as (evs2 & E2 & F2).
    exists (evs1 ++ evs2). split; [by rewrite E2, E1, app_assoc |].
    apply Forall_app.
    split; (eapply Forall_impl; [eassumption | apply query_not_mutating]).
Qed.

Lemma connect_vanished_session_witness :
  main Flaky.sys (InvConnect ["ghost"]) Flaky.start =
    (Stop (Exit 1),
     mkSt 2
          ([notice; EvOutput tmuxArgv; EvOutput zoxideArgv; EvOutput tmuxArgv] ++
             [EvCobraError "session path is missing, cannot create session";
              EvStdout ("session path is missing, cannot create session"
                          +:+ String newline EmptyString)])) ∧
  ∃ evs, [notice; EvOutput tmuxArgv; EvOutput zoxideArgv; EvOutput tmuxArgv]
           = trace Flaky.start ++ evs ∧
         Forall (λ e, mutating e = false) evs.
Proof.
  apply (connect_vanished_session Flaky.sys Flaky.start
           (mkSt 1 [notice; EvOutput tmuxArgv; EvOutput zoxideArgv])
           (mkSt 2 [notice; EvOutput tmuxArgv; EvOutput zoxideArgv; EvOutput tmuxArgv])
           [mkSession "ghost" EmptyString EmptyString EmptyString] []
           "ghost" (mkSession "ghost" EmptyString EmptyString EmptyString));
    vm_compute; reflexivity.
Defined.

(** X18. For a session that is not running and has a path, connect first
    runs the creation command (the tmuxinator launcher when the session
    has a template profile, tmux new-session otherwise) and, when that
    succeeds, switches or attaches: the commands it starts are the
    creation followed by one switch-client inside tmux, or by one
    attach-session outside (by nothing when tmux is not found on the
    PATH). *)
Theorem connect_creates_then_attaches {W : Type} (sys : Sys W) (s s1 s2 : St W)
    (sessions tmux : list Session) (target : string) (sel : Session) (w3 : W) :
  getSessions sys s = (Ret (Ok sessions), s1) →
  selectSession sessions target = Some sel →
  getTmuxSessions sys s1 = (Ret tmux, s2) →
  sessionExistsIn tmux (Name sel) = false →
  Path sel ≠ EmptyString →
  sys_Run sys (createArgv sel) (world s2) = (None, w3) →
  ∃ r s' evs,
    connectSession_RunE sys [target] s = (r, s') ∧
    trace s' = trace s2 ++ evs ∧
    filter (λ e, mutating e = true) evs =
      EvRun (createArgv sel) ::
      if decide (sys_Getenv sys "TMUX" (world s2) ≠ EmptyString)
      then [EvRun (switchArgv target)]
      else match sys_LookPath sys "tmux" w3 with
           | (Ok tmuxPath, w) =>
               [EvExec tmuxPath (attachArgv target) (sys_Environ sys w)]
           | (Err _, _) => []
           end.
Proof.
  intros H1 H2 H3 H4 Hp Hr.
  destruct (selectSession_Some _ _ _ H2) as [En _].
  rewrite (connect_selected sys _ _ _ _ _ _ [] _ H1 H2 H3), H4.
  rewrite (attachOrSwitch_ensured sys false sel target s2
             (mkSt w3 (trace s2 ++ [EvRun (createArgv sel)])))
    by (by apply createTmuxSession_ran).
  unfold finish.
  destruct (decide (sys_Getenv sys "TMUX" (world s2) ≠ EmptyString)) as [Hin | Hout].
  - rewrite bool_decide_true by done. rewrite switchToTmuxSession_eq, En.
    simpl. destruct (sys_Run sys (switchArgv target) w3) as [[e |] w];
      eexists _, _, _; (split; [reflexivity |]); simpl;
      rewrite <- app_assoc; (split; [reflexivity | done]).
  - rewrite bool_decide_false by done. simpl.
    destruct (sys_LookPath sys "tmux" w3) as [[tmuxPath | e] w].
    + destruct (sys_Exec sys tmuxPath _ _ w) as [[e |] w'];
        eexists _, _, _; (split; [reflexivity |]); simpl;
        rewrite <- app_assoc; (split; [reflexivity | done]).
    + eexists _, _, _. split; [reflexivity |]. simpl.
      rewrite <- app_assoc. split; [reflexivity | done].
Qed.

Lemma connect_creates_then_attaches_witness :
  ∃ r s' evs,
    connectSession_RunE (Fixture.sys Fixture.busy) ["/src/a_b"] Fixture.start
      = (r, s') ∧
    trace s' = trace Fixture.afterRecheck ++ evs ∧
    filter (λ e, mutating e = true) evs =
      EvRun (createArgv Fixture.src_a_b) ::
      if decide (sys_Getenv (Fixture.sys Fixture.busy) "TMUX"
                   (world Fixture.afterRecheck) ≠ EmptyString)
      then [EvRun (switchArgv "/src/a_b")]
      else match sys_LookPath (Fixture.sys Fixture.busy) "tmux" tt with
           | (Ok tmuxPath, w) =>
               [EvExec tmuxPath (attachArgv "/src/a_b")
                       (sys_Environ (Fixture.sys Fixture.busy) w)]
           | (Err _, _) => []
           end.
Proof.
  apply (connect_creates_then_attaches (Fixture.sys Fixture.busy) Fixture.start
           Fixture.afterCatalog Fixture.afterRecheck Fixture.busyCatalog
           Fixture.busyTmux "/src/a_b" Fixture.src_a_b tt);
    try (vm_compute; reflexivity).
  intros H. discriminate H.
Defined.

(** X19. Inside tmux, connecting to a running session is one
    switch-client, and the exit status tells whether it worked: the run
    ends normally when the command succeeds, and with the error
    "error switching to tmux session" and exit status 1 when it fails. *)
Theorem connect_inside_tmux_switches {W : Type} (sys : Sys W) (s s1 s2 : St W)
    (sessions tmux : list Session) (target : string) (sel : Session) :
  getSessions sys s = (Ret (Ok sessions), s1) →
  selectSession sessions target = Some sel →
  getTmuxSessions sys s1 = (Ret tmux, s2) →
  sessionExistsIn tmux (Name sel) = true →
  sys_Getenv sys "TMUX" (world s2) ≠ EmptyString →
  main sys (InvConnect [target]) s =
  match sys_Run sys (switchArgv target) (world s2) with
  | (None, w) => (Ret tt, mkSt w (trace s2 ++ [EvRun (switchArgv target)]))
  | (Some e, w) =>
      (Stop (Exit 1),
       mkSt w (trace s2 ++
                 [EvRun (switchArgv target);
                  EvCobraError ("error switching to tmux session: " +:+ e);
                  EvStdout (("error switching to tmux session: " +:+ e)
                              +:+ String newline EmptyString)]))
  end.
Proof.
  intros H1 H2 H3 H4 Hin.
  destruct (selectSession_Some _ _ _ H2) as [En _].
  pose proof (connect_selected sys _ _ _ _ _ _ [] _ H1 H2 H3) as Hc.
  rewrite H4 in Hc.
  rewrite (attachOrSwitch_ensured sys true sel target s2 s2 eq_refl) in Hc.
  rewrite bool_decide_true in Hc by done. unfold finish in Hc.
  rewrite switchToTmuxSession_eq, En in Hc.
  destruct (sys_Run sys (switchArgv target) (world s2)) as [[e |] w].
  - rewrite (main_connect_failed sys _ _ _ _ Hc). simpl. by rewrite <- app_assoc.
  - unfold main, Execute.
    replace (MaximumNArgs 1 [target]) with (@None string) by reflexivity.
    rewrite !bind_run, Hc. reflexivity.
Qed.

Lemma connect_inside_tmux_switches_witness :
  main (Fixture.sys Fixture.busy) (InvConnect ["work"]) Fixture.start =
    (Ret tt, mkSt tt (trace Fixture.afterRecheck ++ [EvRun (switchArgv "work")])) ∧
  main (Fixture.sys Host.noSwitchWorld) (InvConnect ["work"]) Fixture.start =
    (Stop (Exit 1),
     mkSt tt (trace Fixture.afterRecheck ++
                [EvRun (switchArgv "work");
                 EvCobraError "error switching to tmux session: exit status 1";
                 EvStdout ("error switching to tmux session: exit status 1"
                             +:+ String newline EmptyString)])).
Proof.
  split.
  - apply (connect_inside_tmux_switches (Fixture.sys Fixture.busy) Fixture.start
             Fixture.afterCatalog Fixture.afterRecheck Fixture.busyCatalog
             Fixture.busyTmux "work"
             (mkSession "work" EmptyString EmptyString EmptyString));
      try (vm_compute; reflexivity).
    intros H. discriminate H.
  - apply (connect_inside_tmux_switches (Fixture.sys Host.noSwitchWorld)
             Fixture.start Fixture.afterCatalog Fixture.afterRecheck
             Fixture.busyCatalog Fixture.busyTmux "work"
             (mkSession "work" EmptyString EmptyString EmptyString));
      try (vm_compute; reflexivity).
    intros H. discriminate H.
Defined.

(** X20. Outside tmux, connecting to a running session never returns to
    [main]: the process becomes tmux attach-session, run with the
    environment of the process, or it exits with status 1 after a line on
    standard error, when tmux is not found on the PATH or cannot be
    executed.  These two failures are not reported through cobra or on
    standard output. *)
Theorem connect_outside_tmux_execs {W : Type} (sys : Sys W) (s s1 s2 : St W)
    (sessions tmux : list Session) (target : string) (sel : Session) :
  getSessions sys s = (Ret (Ok sessions), s1) →
  selectSession sessions target = Some sel →
  getTmuxSessions sys s1 = (Ret tmux, s2) →
  sessionExistsIn tmux (Name sel) = true →
  sys_Getenv sys "TMUX" (world s2) = EmptyString →
  main sys (InvConnect [target]) s =
  match sys_LookPath sys "tmux" (world s2) with
  | (Err e, w) =>
      (Stop (Exit 1),
       mkSt w (trace s2 ++ [EvStderr ("Error finding tmux: " +:+ e
                                        +:+ String newline EmptyString)]))
  | (Ok tmuxPath, w) =>
      match sys_Exec sys tmuxPath (attachArgv target) (sys_Environ sys w) w with
      | (Some e, w') =>
          (Stop (Exit 1),
           mkSt w' (trace s2 ++
                      [EvExec tmuxPath (attachArgv target) (sys_Environ sys w);
                       EvStderr ("Error executing tmux: " +:+ e
                                   +:+ String newline EmptyString)]))
      | (None, w') =>
          (Stop Replaced,
           mkSt w' (trace s2 ++
                      [EvExec tmuxPath (attachArgv target) (sys_Environ sys w)]))
      end
  end.
Proof.
  intros H1 H2 H3 H4 Hout.
  pose proof (connect_selected sys _ _ _ _ _ _ [] _ H1 H2 H3) as Hc.
  rewrite H4 in Hc.
  rewrite (attachOrSwitch_ensured sys true sel target s2 s2 eq_refl) in Hc.
  rewrite bool_decide_false in Hc by (intros H; by apply H). unfold finish in Hc.
  unfold main, Execute.
  replace (MaximumNArgs 1 [target]) with (@None string) by reflexivity.
  rewrite !bind_run, Hc.
  destruct (sys_LookPath sys "tmux" (world s2)) as [[tmuxPath | e] w]; [| done].
  by destruct (sys_Exec sys tmuxPath _ _ w) as [[e |] w'].
Qed.

Lemma connect_outside_tmux_execs_witness :
  main (Host.sys Host.outside) (InvConnect ["work"]) Fixture.start =
    (Stop Replaced,
     mkSt tt (trace Fixture.afterRecheck ++
                [EvExec "/usr/bin/tmux" (attachArgv "work") ["HOME=/home/u"]])) ∧
  main (Host.sys Host.outsideNoExec) (InvConnect ["work"]) Fixture.start =
    (Stop (Exit 1),
     mkSt tt (trace Fixture.afterRecheck ++
                [EvExec "/usr/bin/tmux" (attachArgv "work") ["HOME=/home/u"];
                 EvStderr ("Error executing tmux: " +:+ "exec format error"
                             +:+ String newline EmptyString)])).
Proof.
  split.
  - apply (connect_outside_tmux_execs (Host.sys Host.outside) Fixture.start
             Fixture.afterCatalog Fixture.afterRecheck Fixture.busyCatalog
             Fixture.busyTmux "work"
             (mkSession "work" EmptyString EmptyString EmptyString));
      vm_compute; reflexivity.
  - apply (connect_outside_tmux_execs (Host.sys Host.outsideNoExec) Fixture.start
             Fixture.afterCatalog Fixture.afterRecheck Fixture.busyCatalog
             Fixture.busyTmux "work"
             (mkSession "work" EmptyString EmptyString EmptyString));
      vm_compute; reflexivity.
Defined.

(** X21. connect takes at most one argument: with two or more the
    argument check fails, the catalog is not built and no tool is run; the
    process reports the error and exits with status 1. *)
Theorem connect_rejects_extra_arguments {W : Type} (sys : Sys W) (s : St W)
    (args : list string) :
  (1 < length args)%nat →
  ∃ e,
    MaximumNArgs 1 args = Some e ∧
    main sys (InvConnect args) s =
    (Stop (Exit 1),
     mkSt (world s)
          (trace s ++ [EvCobraError e; EvStdout (e +:+ String newline EmptyString)])).
Proof.
  intros H. unfold main, Execute, MaximumNArgs.
  rewrite decide_True by done. eexists. split; [reflexivity |].
  rewrite !bind_run. simpl. rewrite bind_run. simpl. by rewrite <- app_assoc.
Qed.

Lemma connect_rejects_extra_arguments_witness :
  ∃ e,
    MaximumNArgs 1 ["work"; "play"] = Some e ∧
    main (Fixture.sys Fixture.busy) (InvConnect ["work"; "play"]) Fixture.start =
    (Stop (Exit 1),
     mkSt (world Fixture.start)
          (trace Fixture.start ++
             [EvCobraError e; EvStdout (e +:+ String newline EmptyString)])).
Proof.
  apply (connect_rejects_extra_arguments (Fixture.sys Fixture.busy) Fixture.start
           ["work"; "play"]).
  simpl. lia.
Defined.

Example too_many_arguments_message :
  MaximumNArgs 1 ["work"; "play"] = Some "accepts at most 1 arg(s), received 2".
Proof. vm_compute. reflexivity. Qed.

(** ** The earlier version against the current one *)

Section LegacyVersion.
Context {W : Type} (sys : Sys W).

Lemma legacy_getTmuxSessions_ok (s s' : St W) (l : list Session) :
  Legacy.getTmuxSessions sys s = (Ret (Ok l), s') →
  getTmuxSessions sys s = (Ret l, s').
Proof.
  unfold Legacy.getTmuxSessions, getTmuxSessions.
  rewrite !bind_run, cmd_Output_run.
  destruct (sys_Output sys _ (world s)).1; [| done].
  by intros [= <- <-].
Qed.

Lemma legacy_getZoxideResults_ok (s s' : St W) (l : list Session) :
  Legacy.getZoxideResults sys s = (Ret (Ok l), s') →
  getZoxideResults sys s = (Ret l, s').
Proof.
  unfold Legacy.getZoxideResults, getZoxideResults.
  rewrite !bind_run, cmd_Output_run.
  destruct (sys_Output sys _ (world s)).1; [| done].
  by intros [= <- <-].
Qed.

Lemma legacy_getGitWorktrees_ok (root : string) (s s' : St W) (l : list string) :
  Legacy.getGitWorktrees sys root s = (Ret (Ok l), s') →
  getGitWorktrees sys root s = (Ret l, s').
Proof.
  unfold Legacy.getGitWorktrees, getGitWorktrees.
  rewrite !bind_run, cmd_Output_run.
  destruct (sys_Output sys _ (world s)).1; [| done].
  by intros [= <- <-].
Qed.

Lemma legacy_getGitWorktrees_returns (root : string) (s : St W) :
  ∃ r s', Legacy.getGitWorktrees sys root s = (Ret r, s').
Proof.
  unfold Legacy.getGitWorktrees. rewrite bind_run, cmd_Output_run.
  destruct (sys_Output sys _ (world s)).1; by eexists _, _.
Qed.

Lemma legacy_configLoop_ok (config : list ConfigSession)
    (flat worktree flat' worktree' : list Session) (s s' : St W) :
  Legacy.configLoop sys flat worktree config s = (Ret (Ok (flat', worktree')), s') →
  configLoop sys flat worktree config s = (Ret (flat', worktree'), s').
Proof.
  revert flat worktree s.
  induction config as [| c rest IH]; intros flat worktree s; simpl.
  - by intros [= <- <- <-].
  - destruct (isWorktreeRoot c); [| apply IH].
    destruct (legacy_getGitWorktrees_returns (cPath c) s) as ([ws | e] & s1 & E);
      rewrite (bind_Ret _ _ _ _ _ E); [| done].
    rewrite (bind_Ret _ _ _ _ _ (legacy_getGitWorktrees_ok _ _ _ _ E)).
    apply IH.
Qed.

Lemma legacy_getTmuxSessions_failed (s : St W) (e : string) (w : W) :
  sys_Output sys tmuxArgv (world s) = (Err e, w) →
  Legacy.getTmuxSessions sys s =
  (Ret (Err ("error executing tmux command: " +:+ e)),
   mkSt w (trace s ++ [EvOutput tmuxArgv])).
Proof.
  intros H. unfold Legacy.getTmuxSessions. rewrite bind_run, cmd_Output_run.
  fold tmuxArgv. by rewrite H.
Qed.

Lemma legacy_getTmuxSessions_returns (s : St W) :
  ∃ r, Legacy.getTmuxSessions sys s =
       (Ret r, mkSt (sys_Output sys tmuxArgv (world s)).2
                    (trace s ++ [EvOutput tmuxArgv])).
Proof.
  unfold Legacy.getTmuxSessions. rewrite bind_run, cmd_Output_run. fold tmuxArgv.
  destruct (sys_Output sys tmuxArgv (world s)).1; by eexists.
Qed.

Lemma legacy_getZoxideResults_failed (s : St W) (e : string) (w : W) :
  sys_Output sys zoxideArgv (world s) = (Err e, w) →
  Legacy.getZoxideResults sys s =
  (Ret (Err ("error executing zoxide command: " +:+ e)),
   mkSt w (trace s ++ [EvOutput zoxideArgv])).
Proof.
  intros H. unfold Legacy.getZoxideResults. rewrite bind_run, cmd_Output_run.
  fold zoxideArgv. by rewrite H.
Qed.

End LegacyVersion.

(** X22. In the earlier version a listing tool that fails makes the whole
    aggregation fail: when tmux fails, its [getSessions] returns the error
    "error executing tmux command" without asking zoxide, and when tmux
    answers and zoxide fails it returns "error executing zoxide command";
    connect returns the same error.  The current [getSessions] returns a
    catalog in the same situation. *)
Theorem legacy_getSessions_aborts {W : Type} (sys : Sys W) (s s1 : St W)
    (config : list ConfigSession) (target : string) :
  loadConfig sys s = (Ret (Ok config), s1) →
  (∀ e w, sys_Output sys tmuxArgv (world s1) = (Err e, w) →
     Legacy.getSessions sys s =
       (Ret (Err ("error executing tmux command: " +:+ e)),
        mkSt w (trace s1 ++ [EvOutput tmuxArgv])) ∧
     Legacy.connectSession_RunE sys [target] s =
       (Ret (Some ("error executing tmux command: " +:+ e)),
        mkSt w (trace s1 ++ [EvOutput tmuxArgv]))) ∧
  (∀ tmux s2 e w,
     Legacy.getTmuxSessions sys s1 = (Ret (Ok tmux), s2) →
     sys_Output sys zoxideArgv (world s2) = (Err e, w) →
     Legacy.getSessions sys s =
       (Ret (Err ("error executing zoxide command: " +:+ e)),
        mkSt w (trace s2 ++ [EvOutput zoxideArgv]))) ∧
  ∃ sessions s', getSessions sys s = (Ret (Ok sessions), s').
Proof.
  intros H1. split; [| split].
  - intros e w H.
    assert (Legacy.getSessions sys s =
            (Ret (Err ("error executing tmux command: " +:+ e)),
             mkSt w (trace s1 ++ [EvOutput tmuxArgv]))) as Hg.
    { unfold Legacy.getSessions.
      rewrite (bind_Ret _ _ _ _ _ H1).
      by rewrite (bind_Ret _ _ _ _ _ (legacy_getTmuxSessions_failed sys _ _ _ H)). }
    split; [exact Hg |].
    unfold Legacy.connectSession_RunE. by rewrite (bind_Ret _ _ _ _ _ Hg).
  - intros tmux s2 e w H2 H3. unfold Legacy.getSessions.
    rewrite (bind_Ret _ _ _ _ _ H1), (bind_Ret _ _ _ _ _ H2).
    by rewrite (bind_Ret _ _ _ _ _ (legacy_getZoxideResults_failed sys _ _ _ H3)).
  - destruct (getSessions_after_config sys _ _ _ H1)
      as (tm & zo & wt & s2 & s3 & s4 & _ & _ & _ & H).
    by eexists _, _.
Qed.

Lemma legacy_getSessions_aborts_witness :
  Legacy.getSessions (Fixture.sys Fixture.broken) Fixture.start =
    (Ret (Err ("error executing tmux command: " +:+ "exit status 1")),
     mkSt tt (trace Fixture.start ++ [EvOutput tmuxArgv])) ∧
  Legacy.connectSession_RunE (Fixture.sys Fixture.broken) ["work"] Fixture.start =
    (Ret (Some ("error executing tmux command: " +:+ "exit status 1")),
     mkSt tt (trace Fixture.start ++ [EvOutput tmuxArgv])).
Proof.
  apply (proj1 (legacy_getSessions_aborts (Fixture.sys Fixture.broken)
                  Fixture.start Fixture.start
                  (match Fixture.config Fixture.broken with
                   | Ok c => c
                   | Err _ => []
                   end) "work" ltac:(vm_compute; reflexivity))
           "exit status 1" tt).
  reflexivity.
Defined.

(** X23. When the earlier [getSessions] returns a list, the current one
    returns, from the same state and with the same queries, that list with
    the later entries of each name removed: the two versions differ, on
    success, by the deduplication only. *)
Theorem current_catalog_dedupes_legacy {W : Type} (sys : Sys W) (s s' : St W)
    (sessions : list Session) :
  Legacy.getSessions sys s = (Ret (Ok sessions), s') →
  getSessions sys s = (Ret (Ok (dedupeByName sessions)), s').
Proof.
  unfold Legacy.getSessions. rewrite bind_run.
  destruct (loadConfig sys s) as [[[config | e] | h] s1] eqn:H1; try done.
  rewrite bind_run.
  destruct (Legacy.getTmuxSessions sys s1) as [[[tm | e] | h] s2] eqn:H2; try done.
  rewrite bind_run.
  destruct (Legacy.getZoxideResults sys s2) as [[[zo | e] | h] s3] eqn:H3; try done.
  rewrite bind_run.
  destruct (Legacy.configLoop sys [] [] config s3)
    as [[[[cs wt] | e] | h] s4] eqn:H4; try done.
  intros [= <- <-].
  apply legacy_getTmuxSessions_ok in H2. apply legacy_getZoxideResults_ok in H3.
  apply legacy_configLoop_ok in H4.
  unfold getSessions.
  rewrite (bind_Ret _ _ _ _ _ H1), (bind_Ret _ _ _ _ _ H2),
    (bind_Ret _ _ _ _ _ H3), (bind_Ret _ _ _ _ _ H4).
  rewrite mergeSessions_catalogOf. reflexivity.
Qed.

Lemma current_catalog_dedupes_legacy_witness :
  getSessions (Fixture.sys Fixture.busy) Fixture.start =
  (Ret (Ok (dedupeByName
              [mkSession "work" EmptyString EmptyString EmptyString;
               mkSession "a_b" EmptyString EmptyString EmptyString;
               mkSession "/src/a_b" "/src/a.b" EmptyString EmptyString;
               mkSession "work" "work" EmptyString "dev";
               mkSession "/repo" "/repo" "worktreeroot" "dev";
               mkSession "/repo/wt_1" "/repo/wt.1" "worktreeroot" "dev";
               mkSession "/src/a_b" "/src/a_b" EmptyString EmptyString;
               mkSession "/tmp/x_y_z" "/tmp/x.y.z" EmptyString EmptyString])),
   Fixture.afterCatalog).
Proof.
  apply (current_catalog_dedupes_legacy (Fixture.sys Fixture.busy) Fixture.start).
  vm_compute. reflexivity.
Defined.
